(** * Telemetry: story-run result ledger and desktop browser backend

    A shallow embedding of
      - telemetry/internal/results/page_test_results.py
        (class [PageTestResults], the result ledger), and
      - telemetry/internal/backends/chrome/desktop_browser_backend.py
        (class [DesktopBrowserBackend], the process supervisor and crash
        report collector),
    followed by the properties of the two classes.

    Python methods mutate [self] and may raise.  A method is embedded as a
    computation in a state-and-exception monad: it takes the object state
    and returns an outcome (a value or a raised exception) together with
    the state left behind.  The state left behind by a raising call is the
    state at the point of the [raise], as in Python.

    The ledger is a closed state machine once the class [StoryRun] it
    delegates to is given; that class lives in story_run.py and is
    modelled from the specification.  The backend talks to the operating
    system and to collaborators: their answers are collected in an
    environment, and what the backend does to them is recorded as a list
    of effects. *)

From Stdlib Require Import ZArith Lia Bool List Ascii String.
From stdpp Require Import base option list gmap strings sets fin_maps.

Local Open Scope string_scope.
Local Open Scope Z_scope.

(* ===================================================================== *)
(** * Python prelude: exceptions and the state-and-exception monad        *)
(* ===================================================================== *)

Module Py.

(** The exception classes the two modules raise or let through. *)
Inductive exn : Type :=
| AssertionError (msg : string)
| ValueError (msg : string)
| TypeError (msg : string)
| EnvironmentError (msg : string)
| OSError (msg : string)
| AttributeError (msg : string)
| TimeoutException (msg : string)
| CloudStorageError (msg : string).

(** Outcome of a call: normal return or a raised exception. *)
Inductive res (A : Type) : Type :=
| Ret (a : A)
| Raise (e : exn).
Arguments Ret {A} a.
Arguments Raise {A} e.

(** A method of an object whose state has type [S]. *)
Definition M (S A : Type) : Type := S -> res A * S.

Definition ret {S A} (a : A) : M S A := fun s => (Ret a, s).

Definition bind {S A B} (m : M S A) (k : A -> M S B) : M S B :=
  fun s =>
    match m s with
    | (Ret a, s') => k a s'
    | (Raise e, s') => (Raise e, s')
    end.

Definition raise {S A} (e : exn) : M S A := fun s => (Raise e, s).

Definition gets {S A} (f : S -> A) : M S A := fun s => (Ret (f s), s).
Definition modify {S} (f : S -> S) : M S unit := fun s => (Ret tt, f s).

(** [assert cond, msg] *)
Definition assert {S} (cond : bool) (msg : string) : M S unit :=
  if cond then ret tt else raise (AssertionError msg).

(** [for x in xs: body x] *)
Fixpoint for_each {S A} (xs : list A) (body : A -> M S unit) : M S unit :=
  match xs with
  | [] => ret tt
  | x :: xs' => bind (body x) (fun _ => for_each xs' body)
  end.

(** Truthiness of an optional string ([None] and [''] are falsy). *)
Definition truthy (o : option string) : bool :=
  match o with
  | None => false
  | Some s => negb (String.eqb s "")
  end.

(** [repr] of a [str] whose characters need no escaping. *)
Definition repr_str (s : string) : string := "'" ++ s ++ "'".

(** An exception instance: its class name and the [repr] of its argument
    tuple without the enclosing parentheses.  [BaseException.__repr__]
    prints the class name followed by the parenthesised arguments, as in
    ["ValueError('expected error',)"]. *)
Record BaseException : Type := mkExc {
  exc_class : string;
  exc_args : string
}.

Definition repr (e : BaseException) : string :=
  exc_class e ++ "(" ++ exc_args e ++ ")".

(** Values that cross the API as untyped Python data: numbers, strings,
    lists and dictionaries with string keys.  Numbers are integers here;
    the ledger never computes with them. *)
#[local] Unset Elimination Schemes.
Inductive pyval : Type :=
| PNum (z : Z)
| PStr (s : string)
| PList (l : list pyval)
| PDict (d : list (string * pyval)).
#[local] Set Elimination Schemes.

End Py.

Import Py.

Declare Scope py_scope.
Delimit Scope py_scope with py.
Notation "'let!' x ':=' m 'in' k" := (Py.bind m (fun x => k))
  (at level 10, x name, m at level 100, k at level 200) : py_scope.
Notation "m '>>' k" := (Py.bind m (fun _ => k))
  (at level 90, right associativity) : py_scope.
Local Open Scope py_scope.

(* ===================================================================== *)
(** * Strings, files and [int()]                                          *)
(* ===================================================================== *)

Module PyStr.

Definition LF : ascii := ascii_of_nat 10.

(** The characters [str.strip] removes: space, tab, line feed, vertical
    tab, form feed and carriage return. *)
Definition is_space (c : ascii) : bool :=
  let n := nat_of_ascii c in
  (Nat.eqb n 32 || (Nat.leb 9 n && Nat.leb n 13))%bool.

Definition is_digit (c : ascii) : bool :=
  let n := nat_of_ascii c in (Nat.leb 48 n && Nat.leb n 57)%bool.

Fixpoint lstrip (s : string) : string :=
  match s with
  | EmptyString => EmptyString
  | String c s' => if is_space c then lstrip s' else s
  end.

Fixpoint rev_onto (s acc : string) : string :=
  match s with
  | EmptyString => acc
  | String c s' => rev_onto s' (String c acc)
  end.

Definition rev (s : string) : string := rev_onto s EmptyString.

Definition rstrip (s : string) : string := rev (lstrip (rev s)).

Definition strip (s : string) : string := rstrip (lstrip s).

(** The lines a file object yields when iterated: each keeps its line
    feed, and a last line without one is yielded as it is. *)
Fixpoint readlines (s : string) : list string :=
  match s with
  | EmptyString => []
  | String c s' =>
      if Ascii.eqb c LF then String c EmptyString :: readlines s'
      else
        match readlines s' with
        | [] => [String c EmptyString]
        | l :: ls => String c l :: ls
        end
  end.

(** Value of a string of decimal digits, most significant first;
    [None] if some character is not a digit. *)
Fixpoint digits_value (s : string) (acc : Z) : option Z :=
  match s with
  | EmptyString => Some acc
  | String c s' =>
      if is_digit c
      then digits_value s' (10 * acc + Z.of_nat (nat_of_ascii c - 48))
      else None
  end.

Definition nonempty_digits (s : string) : option Z :=
  match s with
  | EmptyString => None
  | _ => digits_value s 0
  end.

(** [int(s)] in base ten: surrounding white space is ignored, an optional
    sign is followed by at least one digit.  [None] stands for the
    [ValueError] of an invalid literal. *)
Definition int (s : string) : option Z :=
  match strip s with
  | String "+" s' => nonempty_digits s'
  | String "-" s' => Z.opp <$> nonempty_digits s'
  | s' => nonempty_digits s'
  end.

(** One step of [posixpath.join]: an absolute component replaces what
    came before, otherwise it is appended after a single separator. *)
Definition join2 (path b : string) : string :=
  match b with
  | String "/" _ => b
  | _ =>
      match rev path with
      | EmptyString => b
      | String "/" _ => path ++ b
      | _ => path ++ "/" ++ b
      end
  end.

(** [posixpath.join(a, *p)], which is [os.path.join] on Linux and Mac. *)
Definition posixpath_join (a : string) (p : list string) : string :=
  fold_left join2 p a.

Fixpoint basename_from (s current : string) : string :=
  match s with
  | EmptyString => current
  | String "/" s' => basename_from s' EmptyString
  | String c s' => basename_from s' (current ++ String c EmptyString)
  end.

(** [os.path.basename(p)]: what follows the last slash. *)
Definition basename (p : string) : string := basename_from p EmptyString.

(** [s.startswith(prefix)] *)
Fixpoint startswith (prefix s : string) : bool :=
  match prefix, s with
  | EmptyString, _ => true
  | String a prefix', String b s' =>
      (Ascii.eqb a b && startswith prefix' s')%bool
  | String _ _, EmptyString => false
  end.

End PyStr.

(* ===================================================================== *)
(** * story_run.StoryRun                                                  *)
(* ===================================================================== *)

Module story_run.

(** Modelled from the spec: a story reference (a page); the ledger only
    reads its name. *)
Record Page : Type := mkPage {
  page_name : string;
  page_url : string
}.

(** Modelled from the spec: what a run keeps under a measurement name:
    the unit, the ordered samples and the optional description. *)
Record Measurement : Type := mkMeasurement {
  m_unit : string;
  m_samples : list Z;
  m_description : option string
}.

(** Modelled from the spec: the status of a run, [running -> ok |
    failed(message) | skipped(reason, expected)].  A run on which neither
    [SetFailed] nor [Skip] was called is ok. *)
Inductive Verdict : Type :=
| NoVerdict
| Failed (failure_str : string)
| Skipped (reason : string) (expected : bool).

(** Modelled from the spec: class [StoryRun] of story_run.py, which the
    ledger imports.  One record per executed story: identity (story,
    run index, benchmark name prefix), status, an ordered mapping of
    measurement name to unit, samples and description, a mapping of
    artifact name to what was written to it, the optional TBM metrics and
    the start and end timestamps.  [run_id] is the identity of the Python
    object: two runs created by two constructor calls are different
    objects even when all their fields agree. *)
Record StoryRun : Type := mkStoryRun {
  run_id : nat;
  story : Page;
  test_prefix : string;
  index : Z;
  run_intermediate_dir : option string;
  start_time : Z;
  end_time : option Z;
  verdict : Verdict;
  measurements : list (string * Measurement);
  artifacts : list (string * pyval);
  tbm_metrics : option (list string)
}.

(** Modelled from the spec: the constructor [StoryRun(story, test_prefix,
    index, intermediate_dir)]; the run starts in the running state with
    no measurements and no artifacts. *)
Definition new (id : nat) (now : Z) (page : Page) (prefix : string)
    (idx : Z) (dir : option string) : StoryRun :=
  {| run_id := id; story := page; test_prefix := prefix; index := idx;
     run_intermediate_dir := dir; start_time := now; end_time := None;
     verdict := NoVerdict; measurements := []; artifacts := [];
     tbm_metrics := None |}.

(** Modelled from the spec: the properties [ok], [failed], [skipped] and
    [expected] of a run. *)
Definition ok (r : StoryRun) : bool :=
  match verdict r with NoVerdict => true | _ => false end.
Definition failed (r : StoryRun) : bool :=
  match verdict r with Failed _ => true | _ => false end.
Definition skipped (r : StoryRun) : bool :=
  match verdict r with Skipped _ _ => true | _ => false end.
Definition expected (r : StoryRun) : bool :=
  match verdict r with
  | NoVerdict => true
  | Failed _ => false
  | Skipped _ e => e
  end.

Definition set_end_time (t : option Z) (r : StoryRun) : StoryRun :=
  {| run_id := run_id r; story := story r; test_prefix := test_prefix r;
     index := index r; run_intermediate_dir := run_intermediate_dir r;
     start_time := start_time r; end_time := t; verdict := verdict r;
     measurements := measurements r; artifacts := artifacts r;
     tbm_metrics := tbm_metrics r |}.

Definition set_verdict (v : Verdict) (r : StoryRun) : StoryRun :=
  {| run_id := run_id r; story := story r; test_prefix := test_prefix r;
     index := index r; run_intermediate_dir := run_intermediate_dir r;
     start_time := start_time r; end_time := end_time r; verdict := v;
     measurements := measurements r; artifacts := artifacts r;
     tbm_metrics := tbm_metrics r |}.

Definition set_measurements (ms : list (string * Measurement))
    (r : StoryRun) : StoryRun :=
  {| run_id := run_id r; story := story r; test_prefix := test_prefix r;
     index := index r; run_intermediate_dir := run_intermediate_dir r;
     start_time := start_time r; end_time := end_time r;
     verdict := verdict r; measurements := ms; artifacts := artifacts r;
     tbm_metrics := tbm_metrics r |}.

Definition set_artifacts (arts : list (string * pyval))
    (r : StoryRun) : StoryRun :=
  {| run_id := run_id r; story := story r; test_prefix := test_prefix r;
     index := index r; run_intermediate_dir := run_intermediate_dir r;
     start_time := start_time r; end_time := end_time r;
     verdict := verdict r; measurements := measurements r;
     artifacts := arts; tbm_metrics := tbm_metrics r |}.

Definition set_tbm_metrics (v : option (list string))
    (r : StoryRun) : StoryRun :=
  {| run_id := run_id r; story := story r; test_prefix := test_prefix r;
     index := index r; run_intermediate_dir := run_intermediate_dir r;
     start_time := start_time r; end_time := end_time r;
     verdict := verdict r; measurements := measurements r;
     artifacts := artifacts r; tbm_metrics := v |}.

(** Assignment [d[k] = v] on an insertion-ordered mapping: an existing
    key keeps its position, a new key goes last. *)
Fixpoint dict_set {V} (k : string) (v : V) (d : list (string * V))
    : list (string * V) :=
  match d with
  | [] => [(k, v)]
  | (k', v') :: d' =>
      if String.eqb k k' then (k, v) :: d' else (k', v') :: dict_set k v d'
  end.

Fixpoint dict_get {V} (k : string) (d : list (string * V)) : option V :=
  match d with
  | [] => None
  | (k', v') :: d' => if String.eqb k k' then Some v' else dict_get k d'
  end.

(** Samples are a single number or a list of numbers; anything else is
    not a measurement. *)
Fixpoint all_numbers (l : list pyval) : option (list Z) :=
  match l with
  | [] => Some []
  | PNum z :: l' =>
      match all_numbers l' with
      | Some zs => Some (z :: zs)
      | None => None
      end
  | _ :: _ => None
  end.

Definition numeric_samples (samples : pyval) : option (list Z) :=
  match samples with
  | PNum z => Some [z]
  | PList l => all_numbers l
  | PStr _ | PDict _ => None
  end.

(** Modelled from the spec: [StoryRun.AddMeasurement]; fatal if
    [samples] is not numeric or a sequence of numerics, otherwise the
    measurement is stored in the run's mapping under [name]. *)
Definition AddMeasurement (name unit : string) (samples : pyval)
    (description : option string) : M StoryRun Datatypes.unit :=
  match numeric_samples samples with
  | None => raise (TypeError "samples must be numeric")
  | Some zs =>
      modify (fun r =>
        set_measurements
          (dict_set name (mkMeasurement unit zs description)
             (measurements r)) r)
  end.

(** Modelled from the spec: [StoryRun.SetFailed], [StoryRun.Skip] and
    [StoryRun.Finish]; the last of [SetFailed] and [Skip] wins, and
    [Finish] stamps the end time. *)
Definition SetFailed (failure_str : string) : M StoryRun unit :=
  modify (set_verdict (Failed failure_str)).

Definition Skip (reason : string) (expected : bool) : M StoryRun unit :=
  modify (set_verdict (Skipped reason expected)).

Definition Finish (now : Z) : M StoryRun unit :=
  modify (set_end_time (Some now)).

(** Modelled from the spec: [StoryRun.CreateArtifact(name)] used as
    [with run.CreateArtifact(name) as f: write(content, f)]; the artifact
    is registered on the run with what was written to it. *)
Definition CreateArtifact (name : string) (content : pyval)
    : M StoryRun unit :=
  modify (fun r => set_artifacts (dict_set name content (artifacts r)) r).

(** Modelled from the spec: [StoryRun.CaptureArtifact(name)] used as
    [with run.CaptureArtifact(name) as path: shutil.copy(source, path)];
    the artifact is registered on the run with the file copied to it. *)
Definition CaptureArtifact (name source : string) : M StoryRun unit :=
  modify (fun r =>
    set_artifacts (dict_set name (PStr source) (artifacts r)) r).

(** Modelled from the spec: [StoryRun.SetTbmMetrics] attaches the metrics
    to the run, and [StoryRun.HasArtifactsInDir] tells whether an artifact
    name starts with the given directory. *)
Definition SetTbmMetrics (metrics : list string) : M StoryRun unit :=
  modify (set_tbm_metrics (Some metrics)).

Definition HasArtifactsInDir (prefix : string) (r : StoryRun) : bool :=
  existsb (fun a => PyStr.startswith prefix (fst a)) (artifacts r).

(** Modelled from the spec: the structured record serialized for one run
    (status, timestamps, measurements, artifact names). *)
Record TestResult : Type := mkTestResult {
  tr_test_path : string;
  tr_run_index : Z;
  tr_status : string;
  tr_expected : bool;
  tr_start_time : Z;
  tr_end_time : option Z;
  tr_measurements : list (string * Measurement);
  tr_artifacts : list string
}.

(** Modelled from the spec: [StoryRun.AsDict]; the record of one
    completed run (status, timestamps, measurements, artifact names),
    built from the state the run has when it is called. *)
Definition AsDict (r : StoryRun) : TestResult :=
  {| tr_test_path := test_prefix r ++ "/" ++ page_name (story r);
     tr_run_index := index r;
     tr_status :=
       match verdict r with
       | NoVerdict => "PASS"
       | Failed _ => "FAIL"
       | Skipped _ _ => "SKIP"
       end;
     tr_expected := expected r;
     tr_start_time := start_time r;
     tr_end_time := end_time r;
     tr_measurements := measurements r;
     tr_artifacts := map fst (artifacts r) |}.

End story_run.

(* ===================================================================== *)
(** * page_test_results.PageTestResults                                   *)
(* ===================================================================== *)

Module page_test_results.
Import story_run.

(** All methods of [PageTestResults] are embedded.  Reading the clock,
    which the constructors of the ledger and of a run and [Finish] do, is
    an argument [now] of the method. *)

Definition TEST_RESULTS : string := "_test_results.jsonl".
Definition DIAGNOSTICS_NAME : string := "diagnostics.json".

(** Names of the reserved diagnostics, as the unit test reads them back
    from the diagnostics artifact. *)
Module reserved_infos.
Definition BENCHMARKS : string := "benchmarks".
Definition BENCHMARK_DESCRIPTIONS : string := "benchmarkDescriptions".
Definition OWNERS : string := "owners".
Definition BUG_COMPONENTS : string := "bugComponents".
Definition DOCUMENTATION_URLS : string := "documentationLinks".
Definition ARCHITECTURES : string := "architectures".
Definition DEVICE_IDS : string := "deviceIds".
Definition OS_NAMES : string := "osNames".
Definition OS_VERSIONS : string := "osVersions".
End reserved_infos.

(** Modelled from the spec: the progress-reporter collaborator
    [GTestProgressReporter] ([WillRunStory], [DidRunStory],
    [DidFinishAllStories]), here by what it has been told; it only
    observes the ledger, and the final notification carries the final
    counts. *)
Inductive ProgressEvent : Type :=
| WillRunStory (name : string)
| DidRunStory (name : string) (v : Verdict)
| DidFinishAllStories (num_successful num_failed num_skipped : nat).

Inductive LogLevel : Type := FATAL | ERROR.

(** The results file [_test_results.jsonl], opened for writing by the
    constructor.  [written] holds, oldest first, the records passed to
    [_WriteJsonLine]; each stands for the line
    [json.dumps(data, sort_keys=True, separators=(',', ':')) + '\n']. *)
Record Stream : Type := mkStream {
  written : list TestResult;
  closed : bool
}.

(** The attributes of a [PageTestResults] object, under their Python
    names.  Two more fields record what the object does to the world
    around it: [logging_records] holds the messages passed to [logging],
    oldest first, and [next_run_id] is the identity the next [StoryRun]
    object gets, so that every run the ledger creates is a new object. *)
Record PageTestResults : Type := mkPageTestResults {
  _progress_reporter : list ProgressEvent;
  _output_dir : option string;
  _intermediate_dir : option string;
  _upload_bucket : option string;
  _current_story_run : option StoryRun;
  _all_story_runs : list StoryRun;
  _measurement_units : gmap string string;
  _benchmark_name : string;
  _benchmark_description : string;
  _interruption : option string;
  _results_label : option string;
  _diagnostics : list (string * pyval);
  _finalized : bool;
  _start_time : Z;
  _results_stream : option Stream;
  logging_records : list (LogLevel * string);
  next_run_id : nat
}.

Definition set_progress_reporter (v : list ProgressEvent)
    (self : PageTestResults) : PageTestResults :=
  {| _progress_reporter := v; _output_dir := _output_dir self;
     _intermediate_dir := _intermediate_dir self;
     _upload_bucket := _upload_bucket self;
     _current_story_run := _current_story_run self;
     _all_story_runs := _all_story_runs self;
     _measurement_units := _measurement_units self;
     _benchmark_name := _benchmark_name self;
     _benchmark_description := _benchmark_description self;
     _interruption := _interruption self;
     _results_label := _results_label self;
     _diagnostics := _diagnostics self; _finalized := _finalized self;
     _start_time := _start_time self;
     _results_stream := _results_stream self;
     logging_records := logging_records self;
     next_run_id := next_run_id self |}.

Definition set_current_story_run (v : option StoryRun)
    (self : PageTestResults) : PageTestResults :=
  {| _progress_reporter := _progress_reporter self;
     _output_dir := _output_dir self;
     _intermediate_dir := _intermediate_dir self;
     _upload_bucket := _upload_bucket self; _current_story_run := v;
     _all_story_runs := _all_story_runs self;
     _measurement_units := _measurement_units self;
     _benchmark_name := _benchmark_name self;
     _benchmark_description := _benchmark_description self;
     _interruption := _interruption self;
     _results_label := _results_label self;
     _diagnostics := _diagnostics self; _finalized := _finalized self;
     _start_time := _start_time self;
     _results_stream := _results_stream self;
     logging_records := logging_records self;
     next_run_id := next_run_id self |}.

Definition set_all_story_runs (v : list StoryRun)
    (self : PageTestResults) : PageTestResults :=
  {| _progress_reporter := _progress_reporter self;
     _output_dir := _output_dir self;
     _intermediate_dir := _intermediate_dir self;
     _upload_bucket := _upload_bucket self;
     _current_story_run := _current_story_run self; _all_story_runs := v;
     _measurement_units := _measurement_units self;
     _benchmark_name := _benchmark_name self;
     _benchmark_description := _benchmark_description self;
     _interruption := _interruption self;
     _results_label := _results_label self;
     _diagnostics := _diagnostics self; _finalized := _finalized self;
     _start_time := _start_time self;
     _results_stream := _results_stream self;
     logging_records := logging_records self;
     next_run_id := next_run_id self |}.

Definition set_measurement_units (v : gmap string string)
    (self : PageTestResults) : PageTestResults :=
  {| _progress_reporter := _progress_reporter self;
     _output_dir := _output_dir self;
     _intermediate_dir := _intermediate_dir self;
     _upload_bucket := _upload_bucket self;
     _current_story_run := _current_story_run self;
     _all_story_runs := _all_story_runs self; _measurement_units := v;
     _benchmark_name := _benchmark_name self;
     _benchmark_description := _benchmark_description self;
     _interruption := _interruption self;
     _results_label := _results_label self;
     _diagnostics := _diagnostics self; _finalized := _finalized self;
     _start_time := _start_time self;
     _results_stream := _results_stream self;
     logging_records := logging_records self;
     next_run_id := next_run_id self |}.

Definition set_interruption (v : option string)
    (self : PageTestResults) : PageTestResults :=
  {| _progress_reporter := _progress_reporter self;
     _output_dir := _output_dir self;
     _intermediate_dir := _intermediate_dir self;
     _upload_bucket := _upload_bucket self;
     _current_story_run := _current_story_run self;
     _all_story_runs := _all_story_runs self;
     _measurement_units := _measurement_units self;
     _benchmark_name := _benchmark_name self;
     _benchmark_description := _benchmark_description self;
     _interruption := v; _results_label := _results_label self;
     _diagnostics := _diagnostics self; _finalized := _finalized self;
     _start_time := _start_time self;
     _results_stream := _results_stream self;
     logging_records := logging_records self;
     next_run_id := next_run_id self |}.

Definition set_diagnostics (v : list (string * pyval))
    (self : PageTestResults) : PageTestResults :=
  {| _progress_reporter := _progress_reporter self;
     _output_dir := _output_dir self;
     _intermediate_dir := _intermediate_dir self;
     _upload_bucket := _upload_bucket self;
     _current_story_run := _current_story_run self;
     _all_story_runs := _all_story_runs self;
     _measurement_units := _measurement_units self;
     _benchmark_name := _benchmark_name self;
     _benchmark_description := _benchmark_description self;
     _interruption := _interruption self;
     _results_label := _results_label self; _diagnostics := v;
     _finalized := _finalized self; _start_time := _start_time self;
     _results_stream := _results_stream self;
     logging_records := logging_records self;
     next_run_id := next_run_id self |}.

Definition set_finalized (v : bool)
    (self : PageTestResults) : PageTestResults :=
  {| _progress_reporter := _progress_reporter self;
     _output_dir := _output_dir self;
     _intermediate_dir := _intermediate_dir self;
     _upload_bucket := _upload_bucket self;
     _current_story_run := _current_story_run self;
     _all_story_runs := _all_story_runs self;
     _measurement_units := _measurement_units self;
     _benchmark_name := _benchmark_name self;
     _benchmark_description := _benchmark_description self;
     _interruption := _interruption self;
     _results_label := _results_label self;
     _diagnostics := _diagnostics self; _finalized := v;
     _start_time := _start_time self;
     _results_stream := _results_stream self;
     logging_records := logging_records self;
     next_run_id := next_run_id self |}.

Definition set_results_stream (v : option Stream)
    (self : PageTestResults) : PageTestResults :=
  {| _progress_reporter := _progress_reporter self;
     _output_dir := _output_dir self;
     _intermediate_dir := _intermediate_dir self;
     _upload_bucket := _upload_bucket self;
     _current_story_run := _current_story_run self;
     _all_story_runs := _all_story_runs self;
     _measurement_units := _measurement_units self;
     _benchmark_name := _benchmark_name self;
     _benchmark_description := _benchmark_description self;
     _interruption := _interruption self;
     _results_label := _results_label self;
     _diagnostics := _diagnostics self; _finalized := _finalized self;
     _start_time := _start_time self; _results_stream := v;
     logging_records := logging_records self;
     next_run_id := next_run_id self |}.

Definition set_logging_records (v : list (LogLevel * string))
    (self : PageTestResults) : PageTestResults :=
  {| _progress_reporter := _progress_reporter self;
     _output_dir := _output_dir self;
     _intermediate_dir := _intermediate_dir self;
     _upload_bucket := _upload_bucket self;
     _current_story_run := _current_story_run self;
     _all_story_runs := _all_story_runs self;
     _measurement_units := _measurement_units self;
     _benchmark_name := _benchmark_name self;
     _benchmark_description := _benchmark_description self;
     _interruption := _interruption self;
     _results_label := _results_label self;
     _diagnostics := _diagnostics self; _finalized := _finalized self;
     _start_time := _start_time self;
     _results_stream := _results_stream self; logging_records := v;
     next_run_id := next_run_id self |}.

Definition set_next_run_id (v : nat)
    (self : PageTestResults) : PageTestResults :=
  {| _progress_reporter := _progress_reporter self;
     _output_dir := _output_dir self;
     _intermediate_dir := _intermediate_dir self;
     _upload_bucket := _upload_bucket self;
     _current_story_run := _current_story_run self;
     _all_story_runs := _all_story_runs self;
     _measurement_units := _measurement_units self;
     _benchmark_name := _benchmark_name self;
     _benchmark_description := _benchmark_description self;
     _interruption := _interruption self;
     _results_label := _results_label self;
     _diagnostics := _diagnostics self; _finalized := _finalized self;
     _start_time := _start_time self;
     _results_stream := _results_stream self;
     logging_records := logging_records self; next_run_id := v |}.
(** [__init__]; [now] is what [time.time()] returns.  The results file is
    opened only when an intermediate directory is known. *)
Definition init (now : Z) (output_dir intermediate_dir : option string)
    (benchmark_name benchmark_description : option string)
    (upload_bucket results_label : option string) : PageTestResults :=
  let dir :=
    match intermediate_dir, output_dir with
    | None, Some d => Some (PyStr.posixpath_join d ["artifacts"])
    | _, _ => intermediate_dir
    end in
  let name :=
    if truthy benchmark_name then default "" benchmark_name
    else "(unknown benchmark)" in
  let description :=
    if truthy benchmark_description then default "" benchmark_description
    else "" in
  {| _progress_reporter := [];
     _output_dir := output_dir;
     _intermediate_dir := dir;
     _upload_bucket := upload_bucket;
     _current_story_run := None;
     _all_story_runs := [];
     _measurement_units := ∅;
     _benchmark_name := name;
     _benchmark_description := description;
     _interruption := None;
     _results_label := results_label;
     _diagnostics :=
       [(reserved_infos.BENCHMARKS, PList [PStr name]);
        (reserved_infos.BENCHMARK_DESCRIPTIONS, PList [PStr description])];
     _finalized := false;
     _start_time := now;
     _results_stream :=
       match dir with
       | Some _ => Some (mkStream [] false)
       | None => None
       end;
     logging_records := [];
     next_run_id := 0%nat |}.

(** ** Properties *)

Definition benchmark_name (self : PageTestResults) : string :=
  _benchmark_name self.
Definition benchmark_interrupted (self : PageTestResults) : bool :=
  truthy (_interruption self).
Definition benchmark_interruption (self : PageTestResults)
    : option string :=
  _interruption self.
Definition finalized (self : PageTestResults) : bool := _finalized self.
Definition current_story_run (self : PageTestResults)
    : option StoryRun :=
  _current_story_run self.

Definition count_runs (p : StoryRun -> bool) (self : PageTestResults)
    : nat :=
  length (filter (fun r => p r = true) (_all_story_runs self)).

Definition had_successes (self : PageTestResults) : bool :=
  existsb ok (_all_story_runs self).
Definition num_successful := count_runs ok.
Definition num_expected := count_runs expected.
Definition had_failures (self : PageTestResults) : bool :=
  existsb failed (_all_story_runs self).
Definition num_failed := count_runs failed.
Definition had_skips (self : PageTestResults) : bool :=
  existsb skipped (_all_story_runs self).
Definition num_skipped := count_runs skipped.
Definition empty (self : PageTestResults) : bool :=
  match _all_story_runs self with [] => true | _ => false end.

Definition IterStoryRuns (self : PageTestResults) : list StoryRun :=
  _all_story_runs self.

Definition _IterAllStoryRuns (self : PageTestResults) : list StoryRun :=
  _all_story_runs self ++ option_list (_current_story_run self).

Definition IterRunsWithTraces (self : PageTestResults) : list StoryRun :=
  filter (fun run => HasArtifactsInDir "trace/" run = true)
    (_IterAllStoryRuns self).

(** ** Helpers of the embedding *)

(** Call a method of the current story run.  Every caller asserts first
    that there is one; on [None] Python raises [AttributeError]. *)
Definition on_current_story_run {A} (m : M StoryRun A)
    : M PageTestResults A :=
  fun self =>
    match _current_story_run self with
    | Some r =>
        let '(a, r') := m r in (a, set_current_story_run (Some r') self)
    | None =>
        (Raise (AttributeError "'NoneType' object has no attribute"), self)
    end.

Definition log (lvl : LogLevel) (msg : string) : M PageTestResults unit :=
  modify (fun self =>
    set_logging_records (logging_records self ++ [(lvl, msg)]) self).

Definition report (ev : PageTestResults -> ProgressEvent)
    : M PageTestResults unit :=
  modify (fun self =>
    set_progress_reporter (_progress_reporter self ++ [ev self]) self).

(** [x or y] on optional strings. *)
Definition py_or (x : option string) (y : string) : string :=
  match x with
  | Some s => if String.eqb s "" then y else s
  | None => y
  end.

Definition is_some {A} (o : option A) : bool :=
  match o with Some _ => true | None => false end.

(** ** Methods *)

Definition _WriteJsonLine (data : TestResult) : M PageTestResults unit :=
  let! stream := gets _results_stream in
  match stream with
  | Some f =>
      if closed f then raise (ValueError "I/O operation on closed file")
      else modify (set_results_stream
                     (Some (mkStream (written f ++ [data]) (closed f))))
  | None => ret tt
  end.

Definition CreateArtifact (name : string) (content : pyval)
    : M PageTestResults unit :=
  let! cur := gets _current_story_run in
  assert (is_some cur) "Not currently running test." >>
  on_current_story_run (story_run.CreateArtifact name content).

Definition WillRunPage (now : Z) (page : Page) (story_run_index : Z)
    : M PageTestResults unit :=
  let! fin := gets finalized in
  assert (negb fin) "Results are finalized, cannot run more stories." >>
  let! cur := gets _current_story_run in
  assert (negb (is_some cur)) "Did not call DidRunPage." >>
  modify (fun self =>
    set_next_run_id (S (next_run_id self))
      (set_current_story_run
         (Some (story_run.new (next_run_id self) now page
                  (benchmark_name self) story_run_index
                  (_intermediate_dir self))) self)) >>
  let! diagnostics := gets _diagnostics in
  CreateArtifact DIAGNOSTICS_NAME
    (PDict [("diagnostics", PDict diagnostics)]) >>
  report (fun self => WillRunStory (page_name page)).

Definition DidRunPage (now : Z) (page : Page) : M PageTestResults unit :=
  let! cur := gets _current_story_run in
  assert (is_some cur) "Did not call WillRunPage." >>
  on_current_story_run (story_run.Finish now) >>
  report (fun self =>
    match _current_story_run self with
    | Some r => DidRunStory (page_name (story r)) (verdict r)
    | None => DidRunStory "" NoVerdict
    end) >>
  modify (fun self =>
    set_all_story_runs
      (_all_story_runs self ++ option_list (_current_story_run self))
      self) >>
  modify (set_current_story_run None).

Definition InterruptBenchmark (reason : string) : M PageTestResults unit :=
  let! fin := gets finalized in
  assert (negb fin) "Results are finalized, cannot interrupt." >>
  assert (negb (String.eqb reason ""))
    "A reason string to interrupt must be provided." >>
  log FATAL reason >>
  modify (fun self =>
    set_interruption (Some (py_or (_interruption self) reason)) self).

Definition unit_changed (name old_unit unit : string) : exn :=
  ValueError ("Unit for measurement " ++ repr_str name ++ " changed from "
              ++ old_unit ++ " to " ++ unit ++ ".").

Definition AddMeasurement (name unit : string) (samples : pyval)
    (description : option string) : M PageTestResults Datatypes.unit :=
  let! cur := gets _current_story_run in
  assert (is_some cur) "Not currently running a story." >>
  let! units := gets _measurement_units in
  match units !! name with
  | Some old_unit =>
      if negb (String.eqb unit old_unit)
      then raise (unit_changed name old_unit unit)
      else ret tt
  | None =>
      modify (fun self =>
        set_measurement_units (<[name := unit]> (_measurement_units self))
          self)
  end >>
  on_current_story_run
    (story_run.AddMeasurement name unit samples description).

(** One step of the loop of [AddSharedDiagnostics]. *)
Definition add_diagnostic (info : string) (value : option pyval)
    : M PageTestResults unit :=
  match value with
  | None | Some (PList []) => ret tt
  | Some v =>
      let v' := match v with PList _ => v | _ => PList [v] end in
      modify (fun self =>
        set_diagnostics (dict_set info v' (_diagnostics self)) self)
  end.

Definition AddSharedDiagnostics
    (owners bug_components documentation_urls architecture device_id
     os_name os_version : option pyval) : M PageTestResults unit :=
  for_each
    [(reserved_infos.OWNERS, owners);
     (reserved_infos.BUG_COMPONENTS, bug_components);
     (reserved_infos.DOCUMENTATION_URLS, documentation_urls);
     (reserved_infos.ARCHITECTURES, architecture);
     (reserved_infos.DEVICE_IDS, device_id);
     (reserved_infos.OS_NAMES, os_name);
     (reserved_infos.OS_VERSIONS, os_version)]
    (fun iv => add_diagnostic (fst iv) (snd iv)).

(** The argument of [Fail]: a string, or an [exc_info] triple given here
    by the text [traceback.format_exception] makes of it. *)
Inductive Failure : Type :=
| FailureStr (msg : string)
| FailureExcInfo (formatted : string).

Definition Fail (failure : Failure) : M PageTestResults unit :=
  let! cur := gets _current_story_run in
  assert (is_some cur) "Not currently running test." >>
  let failure_str :=
    match failure with
    | FailureStr msg =>
        "Failure recorded for page "
        ++ match cur with Some r => page_name (story r) | None => "" end
        ++ ": " ++ msg
    | FailureExcInfo formatted => formatted
    end in
  log ERROR failure_str >>
  on_current_story_run (story_run.SetFailed failure_str).

Definition Skip (reason : string) (expected : bool)
    : M PageTestResults unit :=
  let! cur := gets _current_story_run in
  assert (is_some cur) "Not currently running test." >>
  on_current_story_run (story_run.Skip reason expected).

Definition CaptureArtifact (name source : string)
    : M PageTestResults unit :=
  let! cur := gets _current_story_run in
  assert (is_some cur) "Not currently running test." >>
  on_current_story_run (story_run.CaptureArtifact name source).

(** [traces] are the pairs [traces.IterTraceParts()] yields: the trace
    part and the file that holds it.  Copying the file is not modelled as
    fallible. *)
Definition AddTraces (traces : list (string * string))
    (tbm_metrics : option (list string)) : M PageTestResults unit :=
  let! cur := gets _current_story_run in
  assert (is_some cur) "Not currently running test." >>
  for_each traces (fun part_filename =>
    let '(part, filename) := part_filename in
    let artifact_name :=
      PyStr.posixpath_join "trace" [part; PyStr.basename filename] in
    CaptureArtifact artifact_name filename) >>
  match tbm_metrics with
  | Some (m :: ms) => on_current_story_run (SetTbmMetrics (m :: ms))
  | _ => ret tt
  end.

Definition close_results_stream : M PageTestResults unit :=
  let! stream := gets _results_stream in
  match stream with
  | Some f => modify (set_results_stream (Some (mkStream (written f) true)))
  | None => ret tt
  end.

Definition Finalize (exc_value : option BaseException)
    : M PageTestResults unit :=
  let! fin := gets finalized in
  if fin then ret tt
  else
    match exc_value with
    | Some e =>
        InterruptBenchmark (repr e) >>
        modify (set_current_story_run None)
    | None =>
        let! cur := gets _current_story_run in
        assert (negb (is_some cur))
          "Cannot finalize while stories are still running."
    end >>
    modify (set_finalized true) >>
    report (fun self =>
      DidFinishAllStories (num_successful self) (num_failed self)
        (num_skipped self)) >>
    let! runs := gets _all_story_runs in
    for_each runs (fun run => _WriteJsonLine (AsDict run)) >>
    close_results_stream.

(** [with results: ...] calls [Finalize] with the exception that left
    the block, if any. *)
Definition __exit__ (exc_value : option BaseException)
    : M PageTestResults unit :=
  Finalize exc_value.

(** ** Call sequences *)

(** The calls a benchmark makes on a ledger during its lifetime. *)
Inductive Call : Type :=
| CWillRunPage (now : Z) (page : Page) (story_run_index : Z)
| CDidRunPage (now : Z) (page : Page)
| CInterruptBenchmark (reason : string)
| CAddMeasurement (name unit : string) (samples : pyval)
    (description : option string)
| CAddSharedDiagnostics
    (owners bug_components documentation_urls architecture device_id
     os_name os_version : option pyval)
| CFail (failure : Failure)
| CSkip (reason : string) (expected : bool)
| CCreateArtifact (name : string) (content : pyval)
| CCaptureArtifact (name source : string)
| CAddTraces (traces : list (string * string))
    (tbm_metrics : option (list string))
| CFinalize (exc_value : option BaseException).

Definition call (c : Call) : M PageTestResults Datatypes.unit :=
  match c with
  | CWillRunPage now page i => WillRunPage now page i
  | CDidRunPage now page => DidRunPage now page
  | CInterruptBenchmark reason => InterruptBenchmark reason
  | CAddMeasurement name unit samples description =>
      AddMeasurement name unit samples description
  | CAddSharedDiagnostics a b c d e f g =>
      AddSharedDiagnostics a b c d e f g
  | CFail failure => Fail failure
  | CSkip reason expected => Skip reason expected
  | CCreateArtifact name content => CreateArtifact name content
  | CCaptureArtifact name source => CaptureArtifact name source
  | CAddTraces traces tbm_metrics => AddTraces traces tbm_metrics
  | CFinalize exc_value => Finalize exc_value
  end.

(** The ledger after a call, whether the call returned or raised: the
    caller may catch the exception and go on, as the unit tests do. *)
Definition after (c : Call) (self : PageTestResults) : PageTestResults :=
  snd (call c self).

Definition after_all (cs : list Call) (self : PageTestResults)
    : PageTestResults :=
  fold_left (fun s c => after c s) cs self.

(** Outcomes of a sequence of calls, in call order. *)
Fixpoint outcomes (cs : list Call) (self : PageTestResults)
    : list (res Datatypes.unit) :=
  match cs with
  | [] => []
  | c :: cs' => fst (call c self) :: outcomes cs' (after c self)
  end.

End page_test_results.

(* ===================================================================== *)
(** * desktop_browser_backend.DesktopBrowserBackend                       *)
(* ===================================================================== *)

Module desktop_browser_backend.

(** Embedded are the methods that read the control-port file, collect and
    symbolize minidumps, and close the browser.  Launching the browser
    ([__init__], [Start], [LogStartCommand], [BindDevToolsClient]) and
    reading its output ([GetStandardOutput]) are left out. *)

Definition DEVTOOLS_ACTIVE_PORT_FILE : string := "DevToolsActivePort".

(** A [subprocess.Popen] handle. *)
Record Popen : Type := mkPopen { pid : Z }.

(** The attributes of the backend that the embedded methods read or
    write, under their Python names.  [_tmp_output_file] holds the name of
    the temporary file while the file object is there. *)
Record DesktopBrowserBackend : Type := mkBackend {
  profile_directory : string;
  _proc : option Popen;
  _tmp_output_file : option string;
  _most_recent_symbolized_minidump_paths : gset string;
  _tmp_minidump_dir : option string
}.

(** What a method does to the world outside the object, in the order it
    does it.  A call is recorded when it is made, whether or not it then
    raises.  [ETime] is a reading of [time.time()] and [ESleep] a call of
    [time.sleep]. *)
Inductive Effect : Type :=
| EBaseClose
| ECooperativelyShutdown (p : Popen)
| ESendSignalSIGINT (p : Popen)
| EKill (p : Popen)
| ECloseFile (name : string)
| ERmtree (dir : string)
| EUpload (minidump_path : string)
| ESymbolize (minidump_path : string)
| ETime
| ESleep
| EGetMostRecentMinidump (dir : option string)
| ELog (msg : string).

(** The object together with the record of its effects. *)
Record World : Type := mkWorld {
  self : DesktopBrowserBackend;
  effects : list Effect
}.

Definition set_proc (v : option Popen) (b : DesktopBrowserBackend) :=
  {| profile_directory := profile_directory b; _proc := v;
     _tmp_output_file := _tmp_output_file b;
     _most_recent_symbolized_minidump_paths :=
       _most_recent_symbolized_minidump_paths b;
     _tmp_minidump_dir := _tmp_minidump_dir b |}.

Definition set_tmp_output_file (v : option string)
    (b : DesktopBrowserBackend) :=
  {| profile_directory := profile_directory b; _proc := _proc b;
     _tmp_output_file := v;
     _most_recent_symbolized_minidump_paths :=
       _most_recent_symbolized_minidump_paths b;
     _tmp_minidump_dir := _tmp_minidump_dir b |}.

Definition set_symbolized (v : gset string) (b : DesktopBrowserBackend) :=
  {| profile_directory := profile_directory b; _proc := _proc b;
     _tmp_output_file := _tmp_output_file b;
     _most_recent_symbolized_minidump_paths := v;
     _tmp_minidump_dir := _tmp_minidump_dir b |}.

Definition set_tmp_minidump_dir (v : option string)
    (b : DesktopBrowserBackend) :=
  {| profile_directory := profile_directory b; _proc := _proc b;
     _tmp_output_file := _tmp_output_file b;
     _most_recent_symbolized_minidump_paths :=
       _most_recent_symbolized_minidump_paths b;
     _tmp_minidump_dir := v |}.

Definition update (f : DesktopBrowserBackend -> DesktopBrowserBackend)
    : M World unit :=
  modify (fun w => mkWorld (f (self w)) (effects w)).

Definition emit (e : Effect) : M World unit :=
  modify (fun w => mkWorld (self w) (effects w ++ [e])).

Definition field {A} (f : DesktopBrowserBackend -> A) : M World A :=
  gets (fun w => f (self w)).

(** The outcome of a call into the world, decided by the environment. *)
Definition extern {A} (outcome : res A) : M World A :=
  fun w => (outcome, w).

(** [try: body except TimeoutException as e: handler e] *)
Definition except_TimeoutException {A} (body : M World A)
    (handler : string -> M World A) : M World A :=
  fun w =>
    match body w with
    | (Raise (TimeoutException msg), w') => handler msg w'
    | r => r
    end.

(** Modelled from the spec: the decorator [exc_util.BestEffort] of
    py_utils; all internal faults are swallowed and logged, never
    propagated. *)
Definition BestEffort (body : M World unit) : M World unit :=
  fun w =>
    match body w with
    | (Raise e, w') =>
        (Ret tt,
         mkWorld (self w') (effects w' ++ [ELog "Exception dismissed"]))
    | r => r
    end.

(** The world a call runs in: what the file system holds, what the
    clock reads and how each collaborator answers.  An answer of type
    [res] may be a fault.  [time_time k], [GetMostRecentMinidump k] and
    [poll k] are the answers to the k-th such call made by the method
    under consideration.  Times are counted in ticks of the clock. *)
Record Env : Type := mkEnv {
  (* content of the regular file at a path, if there is one *)
  fs_read : string -> option string;
  (* os.path.getmtime of a dump the finder has just reported *)
  getmtime : string -> Z;
  (* time.time() *)
  time_time : nat -> Z;
  (* self.browser.platform.GetOSName() *)
  GetOSName : res string;
  (* self.browser.platform.IsCooperativeShutdownSupported() *)
  IsCooperativeShutdownSupported : res bool;
  (* self.browser.platform.CooperativelyShutdown(self._proc, "chrome") *)
  CooperativelyShutdown : res bool;
  (* py_utils.WaitFor(lambda: not self.IsBrowserRunning(), timeout):
     returns, or raises TimeoutException *)
  WaitFor_not_running : Z -> res unit;
  (* self._proc.poll(): the return code, None while the process runs *)
  poll : nat -> res (option Z);
  (* self._proc.send_signal(signal.SIGINT) *)
  send_signal : res unit;
  (* self._proc.kill() *)
  kill : res unit;
  (* self._tmp_output_file.close() *)
  tmp_output_file_close : res unit;
  (* super(DesktopBrowserBackend, self).Close() *)
  base_Close : res unit;
  (* self._dump_finder.GetMostRecentMinidump(self._tmp_minidump_dir):
     the dump path, if any, and the explanation *)
  GetMostRecentMinidump : nat -> option string * list string;
  (* self._dump_finder.GetAllMinidumpPaths(self._tmp_minidump_dir) *)
  finder_GetAllMinidumpPaths : list string * list string;
  (* cloud_storage.Insert(TELEMETRY_OUTPUT, remote_path, minidump_path) *)
  cloud_storage_Insert : string -> res string;
  (* DesktopMinidumpSymbolizer(...).SymbolizeMinidump(minidump) *)
  SymbolizeMinidump_stack : string -> res (option string)
}.

Section Methods.
Variable env : Env.

Definition _GetDevToolsActivePortPath (b : DesktopBrowserBackend)
    : string :=
  PyStr.posixpath_join (profile_directory b) [DEVTOOLS_ACTIVE_PORT_FILE].

(** The file is read in one snapshot of the file system: [isfile],
    [stat] and [open] see the same file. *)
Definition _FindDevToolsPortAndTarget (b : DesktopBrowserBackend)
    : res (Z * option string) :=
  let devtools_file_path := _GetDevToolsActivePortPath b in
  match fs_read env devtools_file_path with
  | None => Raise (EnvironmentError "DevTools file doest not exist yet")
  | Some content =>
      let lines :=
        if (0 <? Z.of_nat (String.length content))
        then map PyStr.rstrip (PyStr.readlines content)
        else [] in
      match lines with
      | [] => Raise (EnvironmentError "DevTools file empty")
      | line0 :: rest =>
          match PyStr.int line0 with
          | None =>
              Raise (ValueError
                ("invalid literal for int() with base 10: "
                 ++ repr_str line0))
          | Some devtools_port =>
              Ret (devtools_port, head rest)
          end
      end
  end.

(** [self._proc and self._proc.poll() is None]; [k] numbers the checks
    a method makes. *)
Definition IsBrowserRunning (k : nat) : M World bool :=
  let! proc := field _proc in
  match proc with
  | None => ret false
  | Some _ =>
      let! returncode := extern (poll env k) in
      ret (match returncode with None => true | Some _ => false end)
  end.

(** Outcome of a cloud upload: only [CloudStorageError] is caught and
    replaced by a placeholder link. *)
Definition _UploadMinidumpToCloudStorage (minidump_path : string)
    : M World string :=
  emit (EUpload minidump_path) >>
  fun w =>
    match cloud_storage_Insert env minidump_path with
    | Raise (CloudStorageError msg) =>
        (Ret "<Missing link>",
         mkWorld (self w)
           (effects w ++
            [ELog ("Cloud storage error while trying to upload dump: "
                   ++ msg)]))
    | r => (r, w)
    end.

Definition _GetStackFromMinidump (minidump : string)
    : M World (option string) :=
  emit (ESymbolize minidump) >>
  extern (SymbolizeMinidump_stack env minidump).

Definition _InternalSymbolizeMinidump (minidump_path : string)
    : M World (bool * string) :=
  let! cloud_storage_link :=
    _UploadMinidumpToCloudStorage minidump_path in
  let! stack := _GetStackFromMinidump minidump_path in
  if negb (truthy stack)
  then
    let error_message :=
      "Failed to symbolize minidump. Raw stack is uploaded to"
      ++ " cloud storage: " ++ cloud_storage_link ++ "." in
    ret (false, error_message)
  else
    update (fun b =>
      set_symbolized
        ({[minidump_path]} ∪ _most_recent_symbolized_minidump_paths b)
        b) >>
    ret (true, default "" stack).

Definition SymbolizeMinidump (minidump_path : string)
    : M World (bool * string) :=
  _InternalSymbolizeMinidump minidump_path.

Definition join_lines (explanation : list string) : string :=
  String.concat (String PyStr.LF EmptyString) explanation.

Definition GetMostRecentMinidumpPath : M World (option string) :=
  let! dir := field _tmp_minidump_dir in
  emit (EGetMostRecentMinidump dir) >>
  let '(dump_path, explanation) := GetMostRecentMinidump env 0 in
  emit (ELog (join_lines explanation)) >>
  ret dump_path.

Definition GetStackTrace : M World (bool * string) :=
  let! most_recent_dump := GetMostRecentMinidumpPath in
  if negb (truthy most_recent_dump)
  then ret (false, "No crash dump found.")
  else
    emit (ELog ("Minidump found: " ++ default "" most_recent_dump)) >>
    _InternalSymbolizeMinidump (default "" most_recent_dump).

Definition GetAllMinidumpPaths : M World (list string) :=
  let '(paths, explanation) := finder_GetAllMinidumpPaths env in
  emit (ELog (join_lines explanation)) >>
  ret paths.

(** The result is a list made from a set: its order is not specified,
    so it is kept as the set. *)
Definition GetAllUnsymbolizedMinidumpPaths : M World (gset string) :=
  let! paths := GetAllMinidumpPaths in
  let minidump_paths : gset string := list_to_set paths in
  let! symbolized := field _most_recent_symbolized_minidump_paths in
  let unsymbolized_paths := minidump_paths ∖ symbolized in
  ret unsymbolized_paths.

(** The [while] loop of [GetRecentMinidumpPathWithTimeout].  [k] counts
    the iterations begun so far: the loop test makes the clock reading
    number [k + 1] (reading 0 is [start_time]) and the body makes poll
    number [k].  The result is the returned path and the last
    explanation; [None] when [fuel] iterations were not enough to leave
    the loop. *)
Fixpoint poll_loop (fuel k : nat) (start_time timeout_s oldest_ts : Z)
    (explanation : list string)
    : M World (option (option string) * list string) :=
  match fuel with
  | O => ret (None, explanation)
  | S fuel' =>
      emit ETime >>
      if time_time env (S k) - start_time <? timeout_s
      then
        let! dir := field _tmp_minidump_dir in
        emit (EGetMostRecentMinidump dir) >>
        let '(dump_path, explanation') := GetMostRecentMinidump env k in
        if negb (truthy dump_path)
        then poll_loop fuel' (S k) start_time timeout_s oldest_ts
               explanation'
        else
          let mtime := getmtime env (default "" dump_path) in
          if mtime <? oldest_ts
          then poll_loop fuel' (S k) start_time timeout_s oldest_ts
                 explanation'
          else ret (Some dump_path, explanation')
      else ret (Some None, explanation)
  end.

(** [try: ... finally: logging.info(explanation)].  The loop does not
    raise, so the explanation logged on the way out is the one it held
    when it was left. *)
Definition GetRecentMinidumpPathWithTimeout (fuel : nat)
    (timeout_s oldest_ts : Z) : M World (option (option string)) :=
  assert (0 <? timeout_s) "" >>
  assert (0 <=? oldest_ts) "" >>
  let explanation := ["No explanation returned."] in
  emit ETime >>
  let start_time := time_time env 0 in
  let! r := poll_loop fuel 0 start_time timeout_s oldest_ts
              explanation in
  emit (ELog (join_lines (snd r))) >>
  ret (fst r).

Definition _TryCooperativeShutdown : M World unit :=
  let! supported := extern (IsCooperativeShutdownSupported env) in
  if supported then
    let! proc := field _proc in
    match proc with
    | Some p => emit (ECooperativelyShutdown p)
    | None => ret tt
    end >>
    let! done := extern (CooperativelyShutdown env) in
    if done then
      except_TimeoutException
        (extern (WaitFor_not_running env 15) >>
         emit (ELog "Successfully shut down browser cooperatively"))
        (fun msg =>
           emit (ELog ("Failed to cooperatively shutdown. "
                       ++ "Proceeding to terminate: " ++ msg)))
    else ret tt
  else ret tt.

(** A method call on [self._proc]; every caller has just seen
    [IsBrowserRunning] hold, so the handle is there. *)
Definition on_proc (ev : Popen -> Effect) (outcome : res unit)
    : M World unit :=
  let! proc := field _proc in
  match proc with
  | Some p => emit (ev p) >> extern outcome
  | None =>
      raise (AttributeError "'NoneType' object has no attribute")
  end.

(** The body of [Close], under the decorator. *)
Definition Close_body : M World unit :=
  emit EBaseClose >>
  extern (base_Close env) >>
  (* First, try to cooperatively shutdown. *)
  let! running := IsBrowserRunning 0 in
  (if running then _TryCooperativeShutdown else ret tt) >>
  (* Second, try to politely shutdown with SIGINT. *)
  let! running := IsBrowserRunning 1 in
  let! not_win :=
    if running then
      let! os_name := extern (GetOSName env) in
      ret (negb (String.eqb os_name "win"))
    else ret false in
  (if not_win then
     on_proc ESendSignalSIGINT (send_signal env) >>
     except_TimeoutException
       (extern (WaitFor_not_running env 5) >>
        update (set_proc None))
       (fun _ => emit (ELog "Failed to gracefully shutdown."))
   else ret tt) >>
  (* Shutdown aggressively if all above failed. *)
  let! running := IsBrowserRunning 2 in
  (if running then
     emit (ELog "Proceed to kill the browser.") >>
     on_proc EKill (kill env)
   else ret tt) >>
  update (set_proc None) >>
  let! tmp_output_file := field _tmp_output_file in
  match tmp_output_file with
  | Some name =>
      emit (ECloseFile name) >>
      extern (tmp_output_file_close env) >>
      update (set_tmp_output_file None)
  | None => ret tt
  end >>
  let! tmp_minidump_dir := field _tmp_minidump_dir in
  if truthy tmp_minidump_dir then
    emit (ERmtree (default "" tmp_minidump_dir)) >>
    update (set_tmp_minidump_dir None)
  else ret tt.

Definition Close : M World unit := BestEffort Close_body.

End Methods.

End desktop_browser_backend.

(* ===================================================================== *)
(** * Notions used to state the properties of the ledger                  *)
(* ===================================================================== *)

Module ledger_spec.
Import story_run page_test_results.

(** A usage-precondition error is a failed [assert]. *)
Definition usage_error {A} (r : res A) : Prop :=
  exists msg, r = Raise (AssertionError msg).

(** The write loop of [Finalize]. *)
Definition write_all (runs : list StoryRun) : M PageTestResults unit :=
  for_each runs (fun run => _WriteJsonLine (AsDict run)).

(** Ledgers that arise from the constructor by calls. *)
Inductive reachable : PageTestResults -> Prop :=
| reachable_init now output_dir intermediate_dir name description bucket
    label :
    reachable
      (init now output_dir intermediate_dir name description bucket label)
| reachable_call c self :
    reachable self -> reachable (after c self).

(** What holds of every ledger that arises from the constructor: a
    finalized ledger has no run in progress, the results file is open and
    empty until the ledger is finalized, an interruption reason is never
    empty, and the run in progress is a different object from every
    completed run. *)
Record invariant (self : PageTestResults) : Prop := mkInvariant {
  inv_finalized_no_run :
    _finalized self = true -> _current_story_run self = None;
  inv_stream_open :
    _finalized self = false ->
    forall f, _results_stream self = Some f ->
              closed f = false /\ written f = [];
  inv_interruption : _interruption self <> Some EmptyString;
  inv_completed_ids :
    Forall (fun r => (run_id r < next_run_id self)%nat) (_all_story_runs self);
  inv_current_id :
    forall r, _current_story_run self = Some r ->
              (run_id r < next_run_id self)%nat /\
              Forall (fun r' => run_id r' <> run_id r)
                (_all_story_runs self)
}.

(** The first interruption wins: the reason kept after interrupting with
    [reason]. *)
Definition first_interruption (self : PageTestResults) (reason : string)
    : string :=
  match _interruption self with
  | Some first => first
  | None => reason
  end.

(** One story run from [WillRunPage] to [DidRunPage]: the page, the run
    index and the clock readings at its start and at its end. *)
Record StoryExecution : Type := mkStoryExecution {
  exec_page : Page;
  exec_index : Z;
  exec_start : Z;
  exec_end : Z
}.

(** Properly alternating calls: [WillRunPage], [DidRunPage],
    [WillRunPage], [DidRunPage], ... *)
Fixpoint alternating (es : list StoryExecution) : list Call :=
  match es with
  | [] => []
  | e :: es' =>
      CWillRunPage (exec_start e) (exec_page e) (exec_index e)
      :: CDidRunPage (exec_end e) (exec_page e)
      :: alternating es'
  end.

Definition is_DidRunPage (c : Call) : bool :=
  match c with CDidRunPage _ _ => true | _ => false end.

Definition count_DidRunPage (cs : list Call) : nat :=
  length (filter (fun c => is_DidRunPage c = true) cs).

(** ** Example ledgers, after the unit tests *)

Definition foo_page : Page := mkPage "http://www.foo.com/" "http://www.foo.com/".
Definition bar_page : Page := mkPage "http://www.bar.com/" "http://www.bar.com/".

Definition fresh : PageTestResults :=
  init 0 (Some "/tmp/out") (Some "/tmp/out/artifacts/test_run") None None
    None None.

(** A ledger with the first story running. *)
Definition running : PageTestResults := after (CWillRunPage 1 foo_page 0) fresh.

(** A ledger that was interrupted before the story now running began. *)
Definition interrupted_running : PageTestResults :=
  after_all [CInterruptBenchmark "browser crashed"; CWillRunPage 1 foo_page 0]
    fresh.

(** A ledger on which a measurement ['a'] was made in seconds during the
    first story and the second story is running. *)
Definition measured : PageTestResults :=
  after_all
    [CWillRunPage 1 foo_page 0; CAddMeasurement "a" "seconds" (PNum 3) None;
     CDidRunPage 2 foo_page; CWillRunPage 3 bar_page 0]
    fresh.

Definition expected_error : BaseException :=
  mkExc "ValueError" "'expected error',".

Definition two_stories : list StoryExecution :=
  [mkStoryExecution foo_page 0 1 2; mkStoryExecution bar_page 0 3 4].

End ledger_spec.

(* ===================================================================== *)
(** * Notions used to state the properties of the backend                 *)
(* ===================================================================== *)

Module backend_spec.
Import desktop_browser_backend.

(** Effects on the supervised process, the captured-output file and the
    private temp directory. *)
Definition touches_resources (e : Effect) : bool :=
  match e with
  | ECooperativelyShutdown _ | ESendSignalSIGINT _ | EKill _
  | ECloseFile _ | ERmtree _ => true
  | _ => false
  end.

(** The paths [GetAllUnsymbolizedMinidumpPaths] lists. *)
Definition UnsymbolizedDumps (env : Env) (w : World) : gset string :=
  match fst (GetAllUnsymbolizedMinidumpPaths env w) with
  | Ret paths => paths
  | Raise _ => ∅
  end.

(** A file has at least one non-empty line. *)
Definition has_nonempty_line (content : string) : bool :=
  existsb (fun line => negb (String.eqb (PyStr.rstrip line) ""))
    (PyStr.readlines content).

(** The "not ready" condition a caller retries on. *)
Definition not_ready {A} (r : res A) : Prop :=
  exists msg, r = Raise (EnvironmentError msg).

(** Every poll of the minidump finder but the first comes after a sleep
    made since the poll before it.  [pending] tells that a poll was made
    and no sleep since. *)
Fixpoint sleeps_between_polls (pending : bool) (es : list Effect) : bool :=
  match es with
  | [] => true
  | ESleep :: es' => sleeps_between_polls false es'
  | EGetMostRecentMinidump _ :: es' =>
      if pending then false else sleeps_between_polls true es'
  | _ :: es' => sleeps_between_polls pending es'
  end.

(** A dump the loop of [GetRecentMinidumpPathWithTimeout] returns: there is
    a path and the file is not older than [oldest_ts]. *)
Definition qualifying (env : Env) (oldest_ts : Z)
    (found : option string * list string) : bool :=
  (truthy (fst found)
   && negb (getmtime env (default "" (fst found)) <? oldest_ts))%bool.

(** [n] iterations of the loop that find nothing: a clock reading for the
    loop test, then a poll, and nothing else. *)
Fixpoint idle_polls (dir : option string) (n : nat) : list Effect :=
  match n with
  | O => []
  | S n' => ETime :: EGetMostRecentMinidump dir :: idle_polls dir n'
  end.

(** ** Example worlds *)

Definition chrome : Popen := mkPopen 4242.

Definition started : World :=
  mkWorld
    (mkBackend "/tmp/profile" (Some chrome) (Some "/tmp/tmpout")
       ∅ (Some "/tmp/minidumps"))
    [].

(** A world in which the browser ignores SIGINT, nothing is written to the
    profile directory and the finder never finds a dump; the clock
    advances by one tick per reading. *)
Definition stubborn_browser : Env :=
  {| fs_read := fun _ => None;
     getmtime := fun _ => 0;
     time_time := fun k => Z.of_nat k;
     GetOSName := Ret "linux";
     IsCooperativeShutdownSupported := Ret false;
     CooperativelyShutdown := Ret false;
     WaitFor_not_running := fun _ => Raise (TimeoutException "Timed out");
     poll := fun _ => Ret None;
     send_signal := Ret tt;
     kill := Ret tt;
     tmp_output_file_close := Ret tt;
     base_Close := Ret tt;
     GetMostRecentMinidump := fun _ => (None, ["No minidump found"]);
     finder_GetAllMinidumpPaths := ([], []);
     cloud_storage_Insert := fun _ => Ret "gs://bucket/dump";
     SymbolizeMinidump_stack := fun _ => Ret None |}.

(** The same world, except that killing the process faults. *)
Definition kill_faults : Env :=
  {| fs_read := fs_read stubborn_browser;
     getmtime := getmtime stubborn_browser;
     time_time := time_time stubborn_browser;
     GetOSName := GetOSName stubborn_browser;
     IsCooperativeShutdownSupported :=
       IsCooperativeShutdownSupported stubborn_browser;
     CooperativelyShutdown := CooperativelyShutdown stubborn_browser;
     WaitFor_not_running := WaitFor_not_running stubborn_browser;
     poll := poll stubborn_browser;
     send_signal := send_signal stubborn_browser;
     kill := Raise (OSError "[Errno 1] Operation not permitted");
     tmp_output_file_close := tmp_output_file_close stubborn_browser;
     base_Close := base_Close stubborn_browser;
     GetMostRecentMinidump := GetMostRecentMinidump stubborn_browser;
     finder_GetAllMinidumpPaths :=
       finder_GetAllMinidumpPaths stubborn_browser;
     cloud_storage_Insert := cloud_storage_Insert stubborn_browser;
     SymbolizeMinidump_stack := SymbolizeMinidump_stack stubborn_browser |}.

(** A world whose control-port file holds [content]. *)
Definition with_port_file (content : option string) : Env :=
  {| fs_read := fun path =>
       if String.eqb path "/tmp/profile/DevToolsActivePort"
       then content else None;
     getmtime := getmtime stubborn_browser;
     time_time := time_time stubborn_browser;
     GetOSName := GetOSName stubborn_browser;
     IsCooperativeShutdownSupported :=
       IsCooperativeShutdownSupported stubborn_browser;
     CooperativelyShutdown := CooperativelyShutdown stubborn_browser;
     WaitFor_not_running := WaitFor_not_running stubborn_browser;
     poll := poll stubborn_browser;
     send_signal := send_signal stubborn_browser;
     kill := kill stubborn_browser;
     tmp_output_file_close := tmp_output_file_close stubborn_browser;
     base_Close := base_Close stubborn_browser;
     GetMostRecentMinidump := GetMostRecentMinidump stubborn_browser;
     finder_GetAllMinidumpPaths :=
       finder_GetAllMinidumpPaths stubborn_browser;
     cloud_storage_Insert := cloud_storage_Insert stubborn_browser;
     SymbolizeMinidump_stack := SymbolizeMinidump_stack stubborn_browser |}.

(** A world with one dump that the symbolizer resolves. *)
Definition one_dump : Env :=
  {| fs_read := fs_read stubborn_browser;
     getmtime := getmtime stubborn_browser;
     time_time := time_time stubborn_browser;
     GetOSName := GetOSName stubborn_browser;
     IsCooperativeShutdownSupported :=
       IsCooperativeShutdownSupported stubborn_browser;
     CooperativelyShutdown := CooperativelyShutdown stubborn_browser;
     WaitFor_not_running := WaitFor_not_running stubborn_browser;
     poll := poll stubborn_browser;
     send_signal := send_signal stubborn_browser;
     kill := kill stubborn_browser;
     tmp_output_file_close := tmp_output_file_close stubborn_browser;
     base_Close := base_Close stubborn_browser;
     GetMostRecentMinidump :=
       fun _ => (Some "/tmp/minidumps/a.dmp", ["Found a.dmp"]);
     finder_GetAllMinidumpPaths := (["/tmp/minidumps/a.dmp"], []);
     cloud_storage_Insert := cloud_storage_Insert stubborn_browser;
     SymbolizeMinidump_stack := fun _ => Ret (Some "#0 main()") |}.

End backend_spec.

(* ===================================================================== *)
(** * Further notions about the ledger                                    *)
(* ===================================================================== *)

Module ledger_coverage_spec.
Import story_run page_test_results ledger_spec.

(** The calls that act on the story run in progress. *)
Definition needs_run (c : Call) : bool :=
  match c with
  | CAddMeasurement _ _ _ _ | CFail _ | CSkip _ _ | CCreateArtifact _ _
  | CCaptureArtifact _ _ | CAddTraces _ _ => true
  | _ => false
  end.

Definition is_Finalize (c : Call) : bool :=
  match c with CFinalize _ => true | _ => false end.

Definition is_AddSharedDiagnostics (c : Call) : bool :=
  match c with CAddSharedDiagnostics _ _ _ _ _ _ _ => true | _ => false end.

(** What [AddSharedDiagnostics] stores for an argument: nothing for [None]
    and for the empty list, a list as it is, anything else as a list of
    one element. *)
Definition shared_value (value : option pyval) : option pyval :=
  match value with
  | None | Some (PList []) => None
  | Some (PList l) => Some (PList l)
  | Some v => Some (PList [v])
  end.

(** The entry of a diagnostics dictionary after an argument was stored
    under it. *)
Definition stored (value : option pyval) (before : option pyval)
    : option pyval :=
  match shared_value value with
  | Some v => Some v
  | None => before
  end.

Definition is_list (v : pyval) : bool :=
  match v with PList _ => true | _ => false end.

(** The diagnostics dictionary after one step of the loop of
    [AddSharedDiagnostics]. *)
Definition store_diagnostic (info : string) (value : option pyval)
    (d : list (string * pyval)) : list (string * pyval) :=
  match shared_value value with
  | Some v => dict_set info v d
  | None => d
  end.

(** The seven names [AddSharedDiagnostics] may write under. *)
Definition shared_info_names : list string :=
  [reserved_infos.OWNERS; reserved_infos.BUG_COMPONENTS;
   reserved_infos.DOCUMENTATION_URLS; reserved_infos.ARCHITECTURES;
   reserved_infos.DEVICE_IDS; reserved_infos.OS_NAMES;
   reserved_infos.OS_VERSIONS].

(** A ledger finalized after two stories. *)
Definition finalized_ledger : PageTestResults :=
  after_all (alternating two_stories ++ [CFinalize None]) fresh.

End ledger_coverage_spec.

(* ===================================================================== *)
(** * Further notions about the backend                                   *)
(* ===================================================================== *)

Module backend_coverage_spec.
Import desktop_browser_backend backend_spec.

(** The world of [one_dump] with other answers of the upload. *)
Definition with_upload (answer : string -> res string) : Env :=
  {| fs_read := fs_read one_dump;
     getmtime := getmtime one_dump;
     time_time := time_time one_dump;
     GetOSName := GetOSName one_dump;
     IsCooperativeShutdownSupported := IsCooperativeShutdownSupported one_dump;
     CooperativelyShutdown := CooperativelyShutdown one_dump;
     WaitFor_not_running := WaitFor_not_running one_dump;
     poll := poll one_dump;
     send_signal := send_signal one_dump;
     kill := kill one_dump;
     tmp_output_file_close := tmp_output_file_close one_dump;
     base_Close := base_Close one_dump;
     GetMostRecentMinidump := GetMostRecentMinidump one_dump;
     finder_GetAllMinidumpPaths := finder_GetAllMinidumpPaths one_dump;
     cloud_storage_Insert := answer;
     SymbolizeMinidump_stack := SymbolizeMinidump_stack one_dump |}.

(** The upload is refused by cloud storage. *)
Definition upload_faults : Env :=
  with_upload (fun _ => Raise (CloudStorageError "403")).

(** The upload breaks before it reaches cloud storage. *)
Definition upload_breaks : Env :=
  with_upload (fun _ => Raise (OSError "No such file")).

Definition is_kill (e : Effect) : bool :=
  match e with EKill _ => true | _ => false end.

Definition is_sigint (e : Effect) : bool :=
  match e with ESendSignalSIGINT _ => true | _ => false end.

Definition is_cooperative (e : Effect) : bool :=
  match e with ECooperativelyShutdown _ => true | _ => false end.

(** Effects on the supervised process. *)
Definition touches_process (e : Effect) : bool :=
  (is_kill e || is_sigint e || is_cooperative e)%bool.

Fixpoint count (p : Effect -> bool) (es : list Effect) : nat :=
  match es with
  | [] => 0%nat
  | e :: es' => ((if p e then 1 else 0) + count p es')%nat
  end.

End backend_coverage_spec.

(* ===================================================================== *)
(** * Properties of the result ledger                                     *)
(* ===================================================================== *)

Module ledger_properties.
Import story_run page_test_results ledger_spec.

(** Unfolding of the monad, shared by the proofs below. *)
Ltac py_unfold :=
  unfold Py.assert, Py.bind, Py.ret, Py.gets, Py.modify, Py.raise in *.

Ltac py_simpl := py_unfold; simpl in *.

(** ** The write loop of [Finalize] *)

Lemma set_results_stream_same self :
  set_results_stream (_results_stream self) self = self.
Proof. destruct self; reflexivity. Qed.

Lemma write_all_no_stream runs self :
  _results_stream self = None -> write_all runs self = (Ret tt, self).
Proof.
  revert self; induction runs as [|run runs IH]; intros self Hs.
  - reflexivity.
  - unfold write_all in *; simpl. unfold _WriteJsonLine at 1.
    py_simpl. rewrite Hs. apply IH, Hs.
Qed.

Lemma write_all_open runs : forall self f,
  _results_stream self = Some f -> closed f = false ->
  write_all runs self
  = (Ret tt,
     set_results_stream
       (Some (mkStream (written f ++ map AsDict runs) false)) self).
Proof.
  induction runs as [|run runs IH]; intros self f Hs Hc.
  - simpl. rewrite app_nil_r. f_equal.
    destruct self, f; simpl in *; subst; reflexivity.
  - unfold write_all in *; simpl. unfold _WriteJsonLine at 1.
    py_simpl. rewrite Hs, Hc.
    erewrite IH; [| reflexivity | reflexivity]. simpl.
    rewrite <- app_assoc. reflexivity.
Qed.

(** Whatever the loop does, it touches the results stream only. *)
Lemma write_all_frame runs : forall self,
  exists v, snd (write_all runs self) = set_results_stream v self.
Proof.
  induction runs as [|run runs IH]; intros self.
  - exists (_results_stream self). simpl.
    symmetry; apply set_results_stream_same.
  - unfold write_all in *; simpl. unfold _WriteJsonLine at 1.
    py_simpl. destruct (_results_stream self) as [f|] eqn:Hs.
    + destruct (closed f) eqn:Hc; simpl.
      * exists (_results_stream self).
        symmetry; apply set_results_stream_same.
      * destruct (IH (set_results_stream
                        (Some (mkStream (written f ++ [AsDict run])
                                 false)) self)) as [v Hv].
        exists v. rewrite Hv. reflexivity.
    + destruct (IH self) as [v Hv]. exists v. exact Hv.
Qed.

(** Replace the state after the write loop by the state before it with
    another results stream [v], and split on the outcome of the loop. *)
Ltac frame_write_all :=
  match goal with
  | |- context [for_each ?rs ?f ?s] =>
      let v := fresh "v" in
      let Hv := fresh "Hv" in
      let s' := fresh "s'" in
      destruct (write_all_frame rs s) as [v Hv];
      unfold write_all in Hv;
      destruct (for_each rs f s) as [[[]|?] s'];
      simpl in Hv; subst s'; simpl
  end.

(** ** [Finalize] after [Finalize] *)

Lemma Finalize_when_finalized exc_value self :
  finalized self = true -> Finalize exc_value self = (Ret tt, self).
Proof. intros H. unfold Finalize. py_simpl. rewrite H. reflexivity. Qed.

Lemma Finalize_returns_finalized exc_value self :
  fst (Finalize exc_value self) = Ret tt ->
  finalized (snd (Finalize exc_value self)) = true.
Proof.
  unfold Finalize. py_simpl.
  destruct (finalized self) eqn:Hfin; [intros _; exact Hfin|].
  destruct exc_value as [e|].
  - unfold InterruptBenchmark, log. py_simpl. rewrite Hfin. simpl.
    destruct (String.eqb (repr e) "") eqn:Hr; simpl; [discriminate|].
    frame_write_all; [|discriminate].
    intros _. unfold close_results_stream. py_simpl.
    match goal with v : option Stream |- _ => destruct v end; reflexivity.
  - destruct (_current_story_run self); simpl; [discriminate|].
    frame_write_all; [|discriminate].
    intros _. unfold close_results_stream. py_simpl.
    match goal with v : option Stream |- _ => destruct v end; reflexivity.
Qed.

(** C1.  Finalize is idempotent.  For every ledger state and every first
    call of [Finalize] that returns, any later [Finalize], with or
    without an abnormal-exit cause, returns at once without raising and
    leaves the whole ledger as it was: in particular no further record
    is written to the results file. *)
Theorem Finalize_idempotent :
  forall (self : PageTestResults) (exc_value later : option BaseException),
    fst (Finalize exc_value self) = Ret tt ->
    let self' := snd (Finalize exc_value self) in
    finalized self' = true /\
    Finalize later self' = (Ret tt, self') /\
    _results_stream (snd (Finalize later self')) = _results_stream self'.
Proof.
  intros self exc_value later Hret self'.
  assert (Hfin : finalized self' = true)
    by (apply Finalize_returns_finalized; exact Hret).
  split; [exact Hfin|].
  rewrite (Finalize_when_finalized later self' Hfin).
  split; reflexivity.
Qed.

Lemma Finalize_idempotent_witness :
  fst (Finalize None (after_all (alternating two_stories) fresh)) = Ret tt /\
  Finalize (Some expected_error)
    (snd (Finalize None (after_all (alternating two_stories) fresh)))
  = (Ret tt, snd (Finalize None (after_all (alternating two_stories) fresh))).
Proof.
  split; [reflexivity|].
  exact (proj1 (proj2 (Finalize_idempotent
                         (after_all (alternating two_stories) fresh)
                         None (Some expected_error) eq_refl))).
Defined.

(** ** Usage preconditions *)

(** C5.  [WillRunPage] fails with a usage-precondition error whenever a
    run is already in progress or the ledger is finalized, [DidRunPage]
    fails with one whenever no run is in progress, and in both cases the
    ledger is left exactly as it was. *)
Theorem WillRunPage_DidRunPage_usage_errors :
  forall (self : PageTestResults) (now : Z) (page : Page) (i : Z),
    (is_some (_current_story_run self) = true \/ finalized self = true ->
     usage_error (fst (WillRunPage now page i self)) /\
     snd (WillRunPage now page i self) = self) /\
    (_current_story_run self = None ->
     usage_error (fst (DidRunPage now page self)) /\
     snd (DidRunPage now page self) = self).
Proof.
  intros self now page i. split.
  - intros H. unfold WillRunPage. py_simpl.
    destruct (finalized self) eqn:Hfin; simpl.
    + split; [eexists; reflexivity | reflexivity].
    + destruct H as [H|H]; [|discriminate].
      rewrite H. simpl. split; [eexists; reflexivity | reflexivity].
  - intros H. unfold DidRunPage. py_simpl. rewrite H. simpl.
    split; [eexists; reflexivity | reflexivity].
Qed.

Lemma WillRunPage_DidRunPage_usage_errors_witness :
  is_some (_current_story_run running) = true /\
  snd (WillRunPage 5 bar_page 0 running) = running /\
  _current_story_run fresh = None /\
  snd (DidRunPage 5 foo_page fresh) = fresh.
Proof.
  destruct (WillRunPage_DidRunPage_usage_errors running 5 bar_page 0)
    as [Hwill _].
  destruct (WillRunPage_DidRunPage_usage_errors fresh 5 foo_page 0)
    as [_ Hdid].
  split; [reflexivity|].
  split; [exact (proj2 (Hwill (or_introl eq_refl)))|].
  split; [reflexivity|].
  exact (proj2 (Hdid eq_refl)).
Defined.

(** ** Measurement units *)

Lemma String_eqb_neq (a b : string) : a <> b -> String.eqb a b = false.
Proof. intros H. apply String.eqb_neq. exact H. Qed.

(** The unit-mismatch branch of [AddMeasurement]. *)
Lemma AddMeasurement_unit_changed self name unit old_unit samples d :
  is_some (_current_story_run self) = true ->
  _measurement_units self !! name = Some old_unit ->
  unit <> old_unit ->
  AddMeasurement name unit samples d self
  = (Raise (unit_changed name old_unit unit), self).
Proof.
  intros Hcur Hold Hne. unfold AddMeasurement. py_simpl.
  rewrite Hcur. simpl. rewrite Hold.
  rewrite (String_eqb_neq _ _ Hne). reflexivity.
Qed.

(** C10.  [AddMeasurement] is atomic on the unit-mismatch error: with a
    run in progress, a call that raises [ValueError] leaves the whole
    ledger as it was; the name keeps the unit recorded for it before the
    call, which differs from the unit passed, and the current run is
    untouched. *)
Theorem AddMeasurement_unit_mismatch_atomic :
  forall (self : PageTestResults) (name unit : string) (samples : pyval)
         (description : option string) (msg : string),
    is_some (_current_story_run self) = true ->
    fst (AddMeasurement name unit samples description self)
    = Raise (ValueError msg) ->
    let self' := snd (AddMeasurement name unit samples description self) in
    self' = self /\
    _measurement_units self' = _measurement_units self /\
    _current_story_run self' = _current_story_run self /\
    exists old_unit,
      _measurement_units self' !! name = Some old_unit /\
      old_unit <> unit /\
      ValueError msg = unit_changed name old_unit unit.
Proof.
  intros self name unit samples d msg Hcur.
  unfold AddMeasurement, on_current_story_run, story_run.AddMeasurement.
  py_simpl. rewrite Hcur. simpl.
  destruct (_measurement_units self !! name) as [old_unit|] eqn:Hold.
  - destruct (String.eqb unit old_unit) eqn:Heq; simpl.
    + destruct (_current_story_run self); [|discriminate].
      destruct (numeric_samples samples); simpl; discriminate.
    + intros Hmsg. repeat split.
      exists old_unit. repeat split; [exact Hold | | congruence].
      intros ->. rewrite String.eqb_refl in Heq. discriminate.
  - simpl. destruct (_current_story_run self); [|discriminate].
    destruct (numeric_samples samples); simpl; discriminate.
Qed.

Lemma AddMeasurement_unit_mismatch_atomic_witness :
  is_some (_current_story_run measured) = true /\
  fst (AddMeasurement "a" "foobgrobbers" (PNum 3) None measured)
  = Raise (ValueError
             "Unit for measurement 'a' changed from seconds to foobgrobbers.") /\
  snd (AddMeasurement "a" "foobgrobbers" (PNum 3) None measured) = measured.
Proof.
  split; [reflexivity|]. split; [reflexivity|].
  exact (proj1 (AddMeasurement_unit_mismatch_atomic measured "a"
                  "foobgrobbers" (PNum 3) None _ eq_refl eq_refl)).
Defined.

(** ** What a call leaves alone *)

Lemma set_diagnostics_same self :
  set_diagnostics (_diagnostics self) self = self.
Proof. destruct self; reflexivity. Qed.

Lemma add_diagnostic_frame info value self :
  exists v, add_diagnostic info value self = (Ret tt, set_diagnostics v self).
Proof.
  unfold add_diagnostic.
  destruct value as [[z|str|[|x l]|d]|]; py_simpl;
    try (eexists; reflexivity);
    exists (_diagnostics self); rewrite set_diagnostics_same; reflexivity.
Qed.

Lemma add_diagnostics_frame (ivs : list (string * option pyval)) :
  forall self,
    exists v,
      for_each ivs (fun iv => add_diagnostic (fst iv) (snd iv)) self
      = (Ret tt, set_diagnostics v self).
Proof.
  induction ivs as [|[info value] ivs IH]; intros self.
  - exists (_diagnostics self). simpl. py_simpl.
    rewrite set_diagnostics_same. reflexivity.
  - simpl. unfold Py.bind at 1. simpl.
    destruct (add_diagnostic_frame info value self) as [v ->].
    destruct (IH (set_diagnostics v self)) as [v' ->].
    exists v'. reflexivity.
Qed.

Lemma AddSharedDiagnostics_frame a b c d e f g self :
  exists v,
    AddSharedDiagnostics a b c d e f g self
    = (Ret tt, set_diagnostics v self).
Proof. apply add_diagnostics_frame. Qed.

(** The loop of [AddTraces] changes the current run only, and leaves it
    the same object. *)
Lemma capture_traces_frame (traces : list (string * string)) :
  forall self r,
    _current_story_run self = Some r ->
    exists r',
      run_id r' = run_id r /\
      for_each traces (fun part_filename =>
        let '(part, filename) := part_filename in
        CaptureArtifact
          (PyStr.posixpath_join "trace" [part; PyStr.basename filename])
          filename) self
      = (Ret tt, set_current_story_run (Some r') self).
Proof.
  induction traces as [|[part filename] traces IH]; intros self r Hcur.
  - exists r. split; [reflexivity|]. simpl. py_simpl.
    rewrite <- Hcur. destruct self; reflexivity.
  - simpl. unfold Py.bind at 1.
    unfold CaptureArtifact at 1, on_current_story_run,
      story_run.CaptureArtifact.
    py_simpl. rewrite Hcur. simpl. rewrite Hcur.
    match goal with
    | |- context [set_current_story_run (Some ?r1) self] =>
        destruct (IH (set_current_story_run (Some r1) self) r1 eq_refl)
          as (r' & Hid & ->)
    end.
    exists r'. split; [exact Hid | reflexivity].
Qed.

Lemma AddTraces_frame traces tbm_metrics self :
  (exists msg,
     AddTraces traces tbm_metrics self = (Raise (AssertionError msg), self))
  \/
  (exists r r',
     _current_story_run self = Some r /\
     run_id r' = run_id r /\
     AddTraces traces tbm_metrics self
     = (Ret tt, set_current_story_run (Some r') self)).
Proof.
  unfold AddTraces.
  destruct (_current_story_run self) as [r|] eqn:Hcur.
  - right.
    destruct (capture_traces_frame traces self r Hcur) as (r1 & Hid & Hloop).
    unfold Py.bind, Py.gets, Py.assert, Py.ret. rewrite Hcur.
    cbv beta iota. cbn [is_some]. cbv beta iota. rewrite Hloop.
    destruct tbm_metrics as [[|m ms]|];
      try (exists r, r1; repeat split; assumption).
    unfold on_current_story_run, SetTbmMetrics, Py.modify. simpl.
    exists r, (set_tbm_metrics (Some (m :: ms)) r1).
    split; [reflexivity|]. split; [exact Hid | reflexivity].
  - left. unfold Py.bind, Py.gets, Py.assert, Py.raise. rewrite Hcur.
    eexists; reflexivity.
Qed.

Ltac unfold_methods :=
  unfold after, call, Finalize, WillRunPage, DidRunPage,
    InterruptBenchmark, AddMeasurement, Fail, Skip, CreateArtifact,
    CaptureArtifact, close_results_stream, on_current_story_run, log,
    report, story_run.AddMeasurement, story_run.SetFailed, story_run.Skip,
    story_run.Finish, story_run.CreateArtifact, story_run.CaptureArtifact,
    finalized, benchmark_name in *.

(** Split on the innermost scrutinee first, so that each [if] and each
    [match] is decided before the outcome it produces is inspected. *)
Ltac split_matches :=
  repeat first
    [ frame_write_all
    | match goal with
      | |- context [match ?x with _ => _ end] =>
          lazymatch x with
          | context [match _ with _ => _ end] => fail
          | _ => destruct x eqn:?; simpl in *; try discriminate
          end
      end ].

(** Case analysis on a call: afterwards the goal speaks of the fields of
    the ledger before the call.  The two methods that loop over their
    argument are replaced by what they leave behind. *)
Ltac by_call c self :=
  let Hframe := fresh "Hframe" in
  destruct c as [now page i | now page | reason
                | name' unit' samples' description'
                | a b c' d e f g | failure | reason expected
                | name' content | name' source | traces tbm_metrics
                | exc_value];
  [ | | | | destruct (AddSharedDiagnostics_frame a b c' d e f g self)
            as [v Hframe];
        unfold after, call; rewrite Hframe; simpl
    | | | | | destruct (AddTraces_frame traces tbm_metrics self)
                as [[msg Hframe] | (r & r' & Hcur & Hid & Hframe)];
              unfold after, call; rewrite Hframe; simpl
    | ];
  unfold_methods; py_simpl.

(** A name that has a unit keeps it through every call. *)
Lemma unit_kept_by_call (c : Call) self name unit :
  _measurement_units self !! name = Some unit ->
  _measurement_units (after c self) !! name = Some unit.
Proof.
  intros H. by_call c self; split_matches; try exact H.
  all: try match goal with
       | Hn : _ !! ?n = None |- <[ ?n := _ ]> _ !! ?m = _ =>
           rewrite lookup_insert_ne; [exact H | congruence]
       end.
Qed.

Lemma unit_kept_by_calls (cs : list Call) : forall self name unit,
  _measurement_units self !! name = Some unit ->
  _measurement_units (after_all cs self) !! name = Some unit.
Proof.
  induction cs as [|c cs IH]; intros self name unit H; [exact H|].
  simpl. apply IH, unit_kept_by_call, H.
Qed.

(** The first [AddMeasurement] for a name records its unit, whether or
    not the run then accepts the samples. *)
Lemma AddMeasurement_first_records_unit self name unit samples d :
  is_some (_current_story_run self) = true ->
  _measurement_units self !! name = None ->
  _measurement_units (snd (AddMeasurement name unit samples d self))
    !! name = Some unit.
Proof.
  intros Hcur Hnone. unfold_methods; py_simpl.
  rewrite Hcur; simpl. rewrite Hnone; simpl.
  destruct (_current_story_run self); [|discriminate].
  destruct (numeric_samples samples); simpl; apply lookup_insert_eq.
Qed.

(** The same-unit branch of [AddMeasurement]: the units are left alone
    and the samples go to the current run. *)
Lemma AddMeasurement_same_unit self name unit samples d zs run :
  _current_story_run self = Some run ->
  _measurement_units self !! name = Some unit ->
  numeric_samples samples = Some zs ->
  AddMeasurement name unit samples d self
  = (Ret tt,
     set_current_story_run
       (Some (set_measurements
                (dict_set name (mkMeasurement unit zs d)
                   (measurements run)) run)) self).
Proof.
  intros Hcur Hunit Hnum. unfold_methods; py_simpl.
  rewrite Hcur; simpl. rewrite Hunit, String.eqb_refl; simpl.
  rewrite Hcur, Hnum. reflexivity.
Qed.

Lemma dict_get_dict_set {V} (k : string) (v : V) d :
  dict_get k (dict_set k v d) = Some v.
Proof.
  induction d as [|[k' v'] d IH]; simpl.
  - rewrite String.eqb_refl. reflexivity.
  - destruct (String.eqb k k') eqn:E; simpl.
    + rewrite String.eqb_refl. reflexivity.
    + rewrite E. exact IH.
Qed.

(** C2.  The first [AddMeasurement] made for a name while a run is in
    progress fixes the unit of that name for the rest of the ledger's
    life: after any further calls, (1) the name still has that unit,
    (2) an [AddMeasurement] for the name with another unit, made while a
    run is in progress, raises the unit-mismatch error and changes
    nothing, and (3) an [AddMeasurement] for the name with the same unit
    and numeric samples returns, stores exactly those samples under the
    name on the current run and leaves the completed runs and the units
    as they were. *)
Theorem AddMeasurement_unit_is_canonical :
  forall (self : PageTestResults) (name unit : string) (samples : pyval)
         (description : option string) (later : list Call),
    is_some (_current_story_run self) = true ->
    _measurement_units self !! name = None ->
    let self1 := snd (AddMeasurement name unit samples description self) in
    let self2 := after_all later self1 in
    _measurement_units self2 !! name = Some unit /\
    (forall unit' samples' description',
       is_some (_current_story_run self2) = true ->
       unit' <> unit ->
       AddMeasurement name unit' samples' description' self2
       = (Raise (unit_changed name unit unit'), self2)) /\
    (forall samples' description' zs run,
       _current_story_run self2 = Some run ->
       numeric_samples samples' = Some zs ->
       exists run',
         AddMeasurement name unit samples' description' self2
         = (Ret tt, set_current_story_run (Some run') self2) /\
         dict_get name (measurements run')
         = Some (mkMeasurement unit zs description') /\
         run_id run' = run_id run /\
         _all_story_runs (set_current_story_run (Some run') self2)
         = _all_story_runs self2 /\
         _measurement_units (set_current_story_run (Some run') self2)
         = _measurement_units self2).
Proof.
  intros self name unit samples d later Hcur Hnone self1 self2.
  assert (Hunit : _measurement_units self2 !! name = Some unit).
  { apply unit_kept_by_calls.
    apply AddMeasurement_first_records_unit; assumption. }
  split; [exact Hunit|]. split.
  - intros unit' samples' d' Hcur2 Hne.
    apply AddMeasurement_unit_changed; assumption.
  - intros samples' d' zs run Hrun Hnum.
    eexists. split.
    + apply AddMeasurement_same_unit; eassumption.
    + simpl. rewrite dict_get_dict_set. repeat split.
Qed.

Lemma AddMeasurement_unit_is_canonical_witness :
  is_some (_current_story_run running) = true /\
  _measurement_units running !! "a" = None /\
  _measurement_units
    (after_all [CDidRunPage 2 foo_page; CWillRunPage 3 bar_page 0]
       (snd (AddMeasurement "a" "seconds" (PNum 3) None running)))
    !! "a" = Some "seconds".
Proof.
  split; [reflexivity|]. split; [reflexivity|].
  exact (proj1 (AddMeasurement_unit_is_canonical running "a" "seconds"
                  (PNum 3) None
                  [CDidRunPage 2 foo_page; CWillRunPage 3 bar_page 0]
                  eq_refl eq_refl)).
Defined.


Lemma reachable_after_all cs : forall self,
  reachable self -> reachable (after_all cs self).
Proof.
  induction cs as [|c cs IH]; intros self H; [exact H|].
  simpl. apply IH. constructor. exact H.
Qed.


Lemma invariant_init now output_dir intermediate_dir name description
    bucket label :
  invariant
    (init now output_dir intermediate_dir name description bucket label).
Proof.
  constructor; simpl; try discriminate; try constructor.
  all: match goal with
       | H : match ?d with _ => _ end = Some _ |- _ =>
           destruct intermediate_dir, output_dir; simpl in H;
           inversion H; reflexivity
       end.
Qed.

Lemma py_or_nonempty x y : y <> EmptyString -> x <> Some EmptyString ->
  py_or x y <> EmptyString.
Proof.
  intros Hy Hx. unfold py_or. destruct x as [s|]; [|exact Hy].
  destruct (String.eqb s "") eqn:E; [exact Hy|].
  intros ->. discriminate.
Qed.

Lemma repr_nonempty e : repr e <> EmptyString.
Proof. unfold repr. destruct (exc_class e); discriminate. Qed.

Lemma invariant_after c self : invariant self -> invariant (after c self).
Proof.
  intros [H1 H2 H3 H4 H5].
  by_call c self; split_matches.
  all: constructor; simpl; try assumption; try discriminate.
  all: try solve [ intros Hf; rewrite Hf in *; discriminate ].
  all: try solve [ intros Hf; specialize (H1 Hf); congruence ].
  all: try solve [ intros; reflexivity ].
  all: try solve [ intros r [= <-]; simpl; eapply H5; eassumption ].
  all: try solve [ intros ? [= <-]; simpl; split;
                   [ lia | eapply Forall_impl; [exact H4|];
                           simpl; intros; lia ] ].
  all: try solve [ eapply Forall_impl; [exact H4|]; simpl; intros; lia ].
  all: try solve [ apply Forall_app; split; [exact H4|];
                   constructor; [|constructor]; simpl; eapply H5;
                   eassumption ].
  all: try solve [ intros [= E]; revert E; apply py_or_nonempty;
                   [ intros ->; discriminate | exact H3 ] ].
  all: try solve [ intros r [= <-]; simpl; apply (H5 _ eq_refl) ].
  all: try solve [ apply Forall_app; split; [exact H4|];
                   constructor; [|constructor]; simpl;
                   apply (H5 _ eq_refl) ].
  all: try solve [ intros [= E]; revert E; apply py_or_nonempty;
                   [ apply repr_nonempty | exact H3 ] ].
  all: try solve [ intros _; apply H1; reflexivity ].
  all: try solve [ intros Hf; congruence ].
  all: try solve [ intros _; apply H2; reflexivity ].
  all: try solve [ intros _; destruct (_current_story_run self);
                   [discriminate | reflexivity] ].
  all: try solve [ intros r0 [= <-];
                   match goal with
                   | Hid : run_id _ = run_id _ |- _ => rewrite Hid
                   end; eapply H5; eassumption ].
Qed.

Lemma reachable_invariant self : reachable self -> invariant self.
Proof.
  induction 1; [apply invariant_init | apply invariant_after; assumption].
Qed.

(** ** [Finalize] with an abnormal-exit cause *)

(** On a ledger that arose from the constructor, [Finalize] returns
    whenever it is given a cause or no run is in progress. *)
Lemma Finalize_returns_on_reachable self exc_value :
  reachable self ->
  exc_value <> None \/ _current_story_run self = None ->
  fst (Finalize exc_value self) = Ret tt.
Proof.
  intros Hreach Hpre.
  destruct (reachable_invariant self Hreach) as [H1 H2 H3 H4 H5].
  destruct (_finalized self) eqn:Hfin.
  { rewrite Finalize_when_finalized by exact Hfin. reflexivity. }
  specialize (H2 eq_refl).
  assert (Hrepr : forall e, String.eqb (repr e) "" = false)
    by (intros e; apply String.eqb_neq, repr_nonempty).
  unfold Finalize, InterruptBenchmark, log, report, finalized.
  py_simpl. rewrite Hfin; simpl.
  destruct exc_value as [e|]; simpl.
  - rewrite Hfin; simpl. rewrite Hrepr; simpl.
    destruct (_results_stream self) as [f|] eqn:Hstream.
    + destruct (H2 f eq_refl) as [Hclosed _].
      match goal with
      | |- context [for_each ?rs ?body ?s] =>
          change (for_each rs body s) with (write_all rs s);
          rewrite (write_all_open rs s f Hstream Hclosed)
      end.
      reflexivity.
    + match goal with
      | |- context [for_each ?rs ?body ?s] =>
          change (for_each rs body s) with (write_all rs s);
          rewrite (write_all_no_stream rs s Hstream)
      end.
      unfold close_results_stream. py_simpl. rewrite Hstream. reflexivity.
  - destruct Hpre as [Hpre|Hpre]; [contradiction|]. rewrite Hpre; simpl.
    destruct (_results_stream self) as [f|] eqn:Hstream.
    + destruct (H2 f eq_refl) as [Hclosed _].
      match goal with
      | |- context [for_each ?rs ?body ?s] =>
          change (for_each rs body s) with (write_all rs s);
          rewrite (write_all_open rs s f Hstream Hclosed)
      end.
      reflexivity.
    + match goal with
      | |- context [for_each ?rs ?body ?s] =>
          change (for_each rs body s) with (write_all rs s);
          rewrite (write_all_no_stream rs s Hstream)
      end.
      unfold close_results_stream. py_simpl. rewrite Hstream. reflexivity.
Qed.


(** C3 (as amended).  On a ledger with a story run in progress,
    [Finalize] called with an abnormal-exit cause returns, leaves the
    ledger finalized and interrupted, and discards the run in progress:
    the completed runs are exactly those completed before, none of them
    is the discarded run, and the results file holds exactly one record
    per completed run, in completion order.  The interruption reason is
    the description of the cause when the ledger was not interrupted
    before, and stays the earlier reason when it was. *)
Theorem Finalize_with_cause_discards_current_run :
  forall (self : PageTestResults) (cause : BaseException) (run : StoryRun),
    reachable self ->
    _current_story_run self = Some run ->
    let self' := snd (Finalize (Some cause) self) in
    fst (Finalize (Some cause) self) = Ret tt /\
    finalized self' = true /\
    benchmark_interrupted self' = true /\
    benchmark_interruption self'
    = Some (first_interruption self (repr cause)) /\
    _current_story_run self' = None /\
    _all_story_runs self' = _all_story_runs self /\
    Forall (fun r => run_id r <> run_id run) (_all_story_runs self') /\
    _results_stream self'
    = match _results_stream self with
      | Some _ =>
          Some (mkStream (map AsDict (_all_story_runs self)) true)
      | None => None
      end.
Proof.
  intros self cause run Hreach Hrun self'.
  destruct (reachable_invariant self Hreach) as [H1 H2 H3 H4 H5].
  assert (Hfin : _finalized self = false).
  { destruct (_finalized self); [|reflexivity].
    rewrite H1 in Hrun by reflexivity. discriminate. }
  specialize (H2 Hfin). destruct (H5 run Hrun) as [_ Hfresh].
  assert (Hrepr : String.eqb (repr cause) "" = false)
    by (apply String.eqb_neq, repr_nonempty).
  assert (Hor : py_or (_interruption self) (repr cause)
                = first_interruption self (repr cause)).
  { unfold py_or, first_interruption.
    destruct (_interruption self) as [first|]; [|reflexivity].
    destruct (String.eqb first "") eqn:E; [|reflexivity].
    apply String.eqb_eq in E. subst first. contradiction. }
  subst self'. unfold Finalize, InterruptBenchmark, log, report.
  unfold finalized, benchmark_interrupted, benchmark_interruption.
  py_simpl. rewrite Hfin; simpl. rewrite Hfin; simpl.
  rewrite Hrepr; simpl.
  destruct (_results_stream self) as [f|] eqn:Hstream.
  - destruct (H2 f eq_refl) as [Hclosed Hwritten].
    match goal with
    | |- context [for_each ?rs ?body ?s] =>
        change (for_each rs body s) with (write_all rs s);
        rewrite (write_all_open rs s f Hstream Hclosed)
    end.
    unfold close_results_stream. py_simpl.
    rewrite Hwritten, Hor. simpl.
    repeat split; try exact Hfresh.
    unfold first_interruption.
    destruct (_interruption self) as [first|] eqn:E.
    + destruct first; [contradiction | reflexivity].
    + apply negb_true_iff, Hrepr.
  - match goal with
    | |- context [for_each ?rs ?body ?s] =>
        change (for_each rs body s) with (write_all rs s);
        rewrite (write_all_no_stream rs s Hstream)
    end.
    unfold close_results_stream. py_simpl.
    rewrite Hstream, Hor. simpl.
    repeat split; try exact Hfresh; try exact Hstream.
    unfold first_interruption.
    destruct (_interruption self) as [first|] eqn:E.
    + destruct first; [contradiction | reflexivity].
    + apply negb_true_iff, Hrepr.
Qed.

Lemma reachable_interrupted_running : reachable interrupted_running.
Proof. apply reachable_after_all, reachable_init. Qed.

Lemma Finalize_with_cause_discards_current_run_witness :
  reachable interrupted_running /\
  (exists run, _current_story_run interrupted_running = Some run) /\
  benchmark_interruption
    (snd (Finalize (Some expected_error) interrupted_running))
  = Some "browser crashed" /\
  _all_story_runs (snd (Finalize (Some expected_error) interrupted_running))
  = _all_story_runs interrupted_running.
Proof.
  split; [exact reachable_interrupted_running|].
  split; [eexists; reflexivity|].
  pose proof (Finalize_with_cause_discards_current_run interrupted_running
                expected_error _ reachable_interrupted_running eq_refl) as H.
  split; [exact (proj1 (proj2 (proj2 (proj2 H))))|].
  exact (proj1 (proj2 (proj2 (proj2 (proj2 (proj2 H)))))).
Defined.

(** C3, as the claim states it, fails on a ledger that was interrupted
    before: [Finalize] called with a cause while a story run is in
    progress keeps the first interruption reason, which is not the
    description of the cause. *)
Lemma Finalize_with_cause_keeps_first_reason :
  reachable interrupted_running /\
  is_some (_current_story_run interrupted_running) = true /\
  fst (Finalize (Some expected_error) interrupted_running) = Ret tt /\
  benchmark_interruption
    (snd (Finalize (Some expected_error) interrupted_running))
  = Some "browser crashed" /\
  benchmark_interruption
    (snd (Finalize (Some expected_error) interrupted_running))
  <> Some (repr expected_error).
Proof.
  split; [exact reachable_interrupted_running|].
  repeat split. discriminate.
Qed.

(** ** The completed-run sequence *)

(** No call removes or reorders completed runs. *)
Lemma completed_runs_kept_by_call (c : Call) self :
  _all_story_runs self `prefix_of` _all_story_runs (after c self).
Proof.
  by_call c self; split_matches; try reflexivity;
    try (apply prefix_app_r; reflexivity).
Qed.

Lemma completed_runs_kept_by_calls (cs : list Call) : forall self,
  _all_story_runs self `prefix_of` _all_story_runs (after_all cs self).
Proof.
  induction cs as [|c cs IH]; intros self; [reflexivity|].
  simpl. etransitivity; [apply completed_runs_kept_by_call | apply IH].
Qed.

(** One story run from start to end on a ledger with no run in progress. *)
Lemma WillRunPage_DidRunPage_once self e :
  _finalized self = false ->
  _current_story_run self = None ->
  let s1 := after (CWillRunPage (exec_start e) (exec_page e) (exec_index e))
              self in
  let s2 := after (CDidRunPage (exec_end e) (exec_page e)) s1 in
  fst (WillRunPage (exec_start e) (exec_page e) (exec_index e) self)
  = Ret tt /\
  fst (DidRunPage (exec_end e) (exec_page e) s1) = Ret tt /\
  _finalized s2 = false /\
  _current_story_run s2 = None /\
  exists run,
    _all_story_runs s2 = (_all_story_runs self ++ [run])%list /\
    story run = exec_page e /\
    index run = exec_index e /\
    start_time run = exec_start e /\
    end_time run = Some (exec_end e).
Proof.
  intros Hfin Hcur. unfold_methods; py_simpl.
  rewrite Hfin; simpl. rewrite Hcur; simpl.
  repeat split; try assumption.
  eexists; split; [reflexivity|]. repeat split.
Qed.

Lemma count_DidRunPage_alternating es :
  count_DidRunPage (alternating es) = length es.
Proof.
  unfold count_DidRunPage. induction es as [|e es IH]; [reflexivity|].
  cbn [alternating]. rewrite filter_cons_False by (simpl; discriminate).
  rewrite filter_cons_True by reflexivity. simpl. f_equal. exact IH.
Qed.

Lemma alternating_runs es : forall self,
  _finalized self = false ->
  _current_story_run self = None ->
  Forall (fun o => o = Ret tt) (outcomes (alternating es) self) /\
  exists new,
    _all_story_runs (after_all (alternating es) self)
    = (_all_story_runs self ++ new)%list /\
    map story new = map exec_page es /\
    map index new = map exec_index es /\
    map start_time new = map exec_start es /\
    map end_time new = map (fun e => Some (exec_end e)) es.
Proof.
  induction es as [|e es IH]; intros self Hfin Hcur.
  - split; [constructor|]. exists []. simpl. rewrite app_nil_r.
    repeat split.
  - destruct (WillRunPage_DidRunPage_once self e Hfin Hcur)
      as (Hwill & Hdid & Hfin2 & Hcur2 & run & Hall & Hs & Hi & Ht0 & Ht1).
    destruct (IH _ Hfin2 Hcur2) as (Hout & new & Hnew & Hs' & Hi' & Ht0' & Ht1').
    split.
    + simpl. constructor; [exact Hwill|]. constructor; [exact Hdid|].
      exact Hout.
    + exists (run :: new). simpl.
      rewrite Hnew, Hall, <- app_assoc. simpl.
      rewrite Hs, Hi, Ht0, Ht1, Hs', Hi', Ht0', Ht1'. repeat split.
Qed.

(** C4.  On a ledger that is not finalized and has no run in progress,
    every call of a properly alternating sequence of [WillRunPage] and
    [DidRunPage] calls returns; afterwards the completed-run sequence has
    grown by as many runs as there were [DidRunPage] calls, the new runs
    are those of the calls in call order, and whatever is called later the
    sequence reached stays a prefix of the completed-run sequence. *)
Theorem completed_runs_follow_DidRunPage_calls :
  forall (self : PageTestResults) (es : list StoryExecution)
         (later : list Call),
    _finalized self = false ->
    _current_story_run self = None ->
    let cs := alternating es in
    let self' := after_all cs self in
    Forall (fun o => o = Ret tt) (outcomes cs self) /\
    length (_all_story_runs self')
    = (length (_all_story_runs self) + count_DidRunPage cs)%nat /\
    (_all_story_runs self = [] ->
     length (_all_story_runs self') = count_DidRunPage cs) /\
    (exists new,
       _all_story_runs self' = (_all_story_runs self ++ new)%list /\
       map story new = map exec_page es /\
       map index new = map exec_index es /\
       map start_time new = map exec_start es /\
       map end_time new = map (fun e => Some (exec_end e)) es) /\
    _all_story_runs self' `prefix_of` _all_story_runs (after_all later self').
Proof.
  intros self es later Hfin Hcur cs self'.
  destruct (alternating_runs es self Hfin Hcur)
    as (Hout & new & Hnew & Hs & Hi & Ht0 & Ht1).
  assert (Hlen : length (_all_story_runs self')
                 = (length (_all_story_runs self) + count_DidRunPage cs)%nat).
  { subst self' cs. rewrite Hnew, length_app, count_DidRunPage_alternating.
    f_equal. rewrite <- (length_map story new), Hs, length_map. reflexivity. }
  split; [exact Hout|]. split; [exact Hlen|]. split; [|split].
  - intros Hempty. rewrite Hlen, Hempty. reflexivity.
  - exists new. repeat split; assumption.
  - apply completed_runs_kept_by_calls.
Qed.

Lemma completed_runs_follow_DidRunPage_calls_witness :
  _finalized fresh = false /\
  _current_story_run fresh = None /\
  length (_all_story_runs (after_all (alternating two_stories) fresh))
  = count_DidRunPage (alternating two_stories) /\
  _all_story_runs (after_all (alternating two_stories) fresh)
  `prefix_of`
  _all_story_runs
    (after_all [CFinalize None]
       (after_all (alternating two_stories) fresh)).
Proof.
  pose proof (completed_runs_follow_DidRunPage_calls fresh two_stories
                [CFinalize None] eq_refl eq_refl) as H.
  split; [reflexivity|]. split; [reflexivity|].
  split; [exact (proj1 (proj2 (proj2 H)) eq_refl)|].
  exact (proj2 (proj2 (proj2 (proj2 H)))).
Defined.

End ledger_properties.

(* ===================================================================== *)
(** * Properties of the desktop browser backend                           *)
(* ===================================================================== *)

Module backend_properties.
Import desktop_browser_backend backend_spec.

Ltac py_unfold :=
  unfold Py.assert, Py.bind, Py.ret, Py.gets, Py.modify, Py.raise,
    update, emit, field, extern in *.

Ltac py_simpl := py_unfold; simpl in *.

(** A sequence returns only if its first part returned. *)
Lemma bind_returns {S A B} (m : M S A) (k : A -> M S B) (w : S) (b : B) :
  fst (Py.bind m k w) = Ret b ->
  exists a w1, m w = (Ret a, w1) /\ Py.bind m k w = k a w1.
Proof.
  unfold Py.bind. destruct (m w) as [[a|e] w1]; simpl; [|discriminate].
  intros _. exists a, w1. split; reflexivity.
Qed.

(** ** [Close] *)

(** The release part of [Close]: what follows the shutdown escalation. *)
Lemma Close_body_returns_released env w :
  fst (Close_body env w) = Ret tt ->
  _proc (self (snd (Close_body env w))) = None /\
  _tmp_output_file (self (snd (Close_body env w))) = None /\
  truthy (_tmp_minidump_dir (self (snd (Close_body env w)))) = false.
Proof.
  unfold Close_body. intros H.
  do 9 match type of H with
       | fst (Py.bind ?m ?k ?w) = Ret tt =>
           let a := fresh "a" in
           let w1 := fresh "w" in
           let E := fresh "E" in
           destruct (bind_returns m k w tt H) as (a & w1 & _ & E);
           rewrite E in H |- *; clear E
       end.
  revert H. py_simpl.
  match goal with
  | |- context [_tmp_output_file (self ?w)] =>
      destruct w as [[dir proc out sym dumps] effs]
  end; simpl.
  destruct out as [name|]; simpl.
  - destruct (tmp_output_file_close env) as [[]|e]; simpl; [|discriminate].
    destruct dumps as [d|]; simpl; [|intros _; repeat split].
    destruct (String.eqb d "") eqn:E; simpl; intros _; repeat split.
    rewrite E. reflexivity.
  - destruct dumps as [d|]; simpl; [|intros _; repeat split].
    destruct (String.eqb d "") eqn:E; simpl; intros _; repeat split.
    rewrite E. reflexivity.
Qed.

(** With nothing left to release, the body of [Close] makes the
    base-class call and nothing else. *)
Lemma Close_body_idle env w :
  _proc (self w) = None ->
  _tmp_output_file (self w) = None ->
  truthy (_tmp_minidump_dir (self w)) = false ->
  Close_body env w
  = (base_Close env, mkWorld (self w) (effects w ++ [EBaseClose])).
Proof.
  destruct w as [[dir proc out sym dumps] effs]. simpl.
  intros -> -> Hdir. unfold Close_body, IsBrowserRunning. py_simpl.
  destruct (base_Close env) as [[]|e]; simpl; [|reflexivity].
  rewrite Hdir. reflexivity.
Qed.

Lemma Close_returns env w : fst (Close env w) = Ret tt.
Proof.
  unfold Close, BestEffort.
  destruct (Close_body env w) as [[[]|e] w']; reflexivity.
Qed.

(** C6 (as amended).  [Close] never propagates an exception to its caller,
    whatever internal step faults.  After a [Close] that ran all its steps
    without a fault, a second [Close] raises nothing, leaves every field of
    the backend as it was and does nothing to the process, the output file
    or the temp directory: it sends no signal and no kill, closes no file
    and deletes no directory. *)
Theorem Close_best_effort_and_idempotent :
  forall (env env2 : Env) (w : World),
    fst (Close env w) = Ret tt /\
    (fst (Close_body env w) = Ret tt ->
     let w1 := snd (Close env w) in
     fst (Close env2 w1) = Ret tt /\
     self (snd (Close env2 w1)) = self w1 /\
     exists more,
       effects (snd (Close env2 w1)) = (effects w1 ++ more)%list /\
       forallb (fun e => negb (touches_resources e)) more = true).
Proof.
  intros env env2 w. split; [apply Close_returns|].
  intros Hdone w1. split; [apply Close_returns|].
  destruct (Close_body_returns_released env w Hdone) as (Hproc & Hout & Hdir).
  assert (Hw1 : w1 = snd (Close_body env w)).
  { subst w1. unfold Close, BestEffort.
    destruct (Close_body env w) as [[[]|e] w']; [reflexivity|discriminate]. }
  rewrite <- Hw1 in Hproc, Hout, Hdir.
  clearbody w1. unfold Close, BestEffort.
  rewrite (Close_body_idle env2 w1 Hproc Hout Hdir).
  destruct (base_Close env2) as [[]|e]; simpl.
  - split; [reflexivity|]. exists [EBaseClose]. split; reflexivity.
  - split; [reflexivity|].
    exists [EBaseClose; ELog "Exception dismissed"].
    rewrite <- app_assoc. split; reflexivity.
Qed.

Lemma Close_best_effort_and_idempotent_witness :
  fst (Close_body stubborn_browser started) = Ret tt /\
  fst (Close kill_faults (snd (Close stubborn_browser started))) = Ret tt /\
  self (snd (Close kill_faults (snd (Close stubborn_browser started))))
  = self (snd (Close stubborn_browser started)).
Proof.
  destruct (Close_best_effort_and_idempotent stubborn_browser kill_faults
              started) as [_ H].
  split; [reflexivity|].
  destruct (H eq_refl) as (Hret & Hself & _).
  split; [exact Hret | exact Hself].
Defined.

(** C6, as the claim states it, fails after a [Close] that was cut short:
    when killing the process faults, the fault is swallowed and the rest
    of the cleanup is skipped, and a second [Close] is not a no-op: it
    signals and kills the process again, closes the output file, deletes
    the temp directory and clears the fields. *)
Lemma Close_after_faulted_Close_is_not_a_noop :
  fst (Close kill_faults started) = Ret tt /\
  self (snd (Close kill_faults started)) = self started /\
  fst (Close stubborn_browser (snd (Close kill_faults started))) = Ret tt /\
  self (snd (Close stubborn_browser (snd (Close kill_faults started))))
  <> self (snd (Close kill_faults started)) /\
  effects (snd (Close stubborn_browser (snd (Close kill_faults started))))
  = (effects (snd (Close kill_faults started))
     ++ [EBaseClose; ESendSignalSIGINT chrome;
         ELog "Failed to gracefully shutdown.";
         ELog "Proceed to kill the browser."; EKill chrome;
         ECloseFile "/tmp/tmpout"; ERmtree "/tmp/minidumps"])%list.
Proof.
  repeat split. vm_compute. discriminate.
Qed.

(** ** Symbolization *)

Lemma UnsymbolizedDumps_eq env w :
  UnsymbolizedDumps env w
  = list_to_set (fst (finder_GetAllMinidumpPaths env))
    ∖ _most_recent_symbolized_minidump_paths (self w).
Proof.
  unfold UnsymbolizedDumps, GetAllUnsymbolizedMinidumpPaths,
    GetAllMinidumpPaths.
  destruct (finder_GetAllMinidumpPaths env) as [paths explanation].
  reflexivity.
Qed.

Ltac symbolize_cases env p :=
  unfold SymbolizeMinidump, _InternalSymbolizeMinidump,
    _UploadMinidumpToCloudStorage, _GetStackFromMinidump;
  py_simpl;
  destruct (cloud_storage_Insert env p) as [url|[]]; simpl;
  destruct (SymbolizeMinidump_stack env p) as [[stack'|]|[]]; simpl;
  try destruct (String.eqb stack' ""); simpl.

(** What a call returns does not depend on the backend it is made on, and
    in particular not on the paths already symbolized. *)
Lemma SymbolizeMinidump_outcome env p w1 w2 :
  fst (SymbolizeMinidump env p w1) = fst (SymbolizeMinidump env p w2).
Proof. symbolize_cases env p; reflexivity. Qed.

(** Every call starts by uploading the dump and, unless the upload faults
    with something else than a cloud-storage error, goes on to ask the
    symbolizer. *)
Lemma SymbolizeMinidump_effects env p w :
  exists rest,
    effects (snd (SymbolizeMinidump env p w))
    = (effects w ++ EUpload p :: rest)%list /\
    ((forall e, cloud_storage_Insert env p = Raise e ->
                exists msg, e = CloudStorageError msg) ->
     In (ESymbolize p) rest).
Proof.
  assert (H : forall r, cloud_storage_Insert env p = r ->
    exists rest,
      effects (snd (SymbolizeMinidump env p w))
      = (effects w ++ EUpload p :: rest)%list /\
      ((forall e, r = Raise e -> exists msg, e = CloudStorageError msg) ->
       In (ESymbolize p) rest)).
  { symbolize_cases env p; intros r <-; rewrite <- ?app_assoc; simpl;
      eexists; (split; [reflexivity|]); intros Hcloud;
      try (destruct (Hcloud _ eq_refl) as [? [=]]);
      simpl; tauto. }
  exact (H _ eq_refl).
Qed.

Lemma SymbolizeMinidump_success env p w stack :
  fst (SymbolizeMinidump env p w) = Ret (true, stack) ->
  _most_recent_symbolized_minidump_paths
    (self (snd (SymbolizeMinidump env p w)))
  = {[p]} ∪ _most_recent_symbolized_minidump_paths (self w).
Proof. symbolize_cases env p; intros [=]; reflexivity. Qed.

Lemma SymbolizeMinidump_failure env p w msg :
  fst (SymbolizeMinidump env p w) = Ret (false, msg) ->
  self (snd (SymbolizeMinidump env p w)) = self w.
Proof. symbolize_cases env p; intros [=]; reflexivity. Qed.

(** C7.  After a [SymbolizeMinidump] call on a path returns [(True,
    stack)], the path is not listed by [GetAllUnsymbolizedMinidumpPaths]
    whatever the finder reports, yet a second call on the same path runs
    as on a backend that never symbolized it: it uploads the dump again,
    asks the symbolizer again unless the upload faults, and returns what
    the collaborators decide.  A call returning [(False,
    message)] leaves the set of symbolized paths as it was, so the listing
    is unchanged and a path listed before is still listed. *)
Theorem SymbolizeMinidump_memoizes_success_only :
  forall (env : Env) (p : string) (w : World),
    let w' := snd (SymbolizeMinidump env p w) in
    (forall stack,
       fst (SymbolizeMinidump env p w) = Ret (true, stack) ->
       (forall env', p ∉ UnsymbolizedDumps env' w') /\
       (forall env2,
          fst (SymbolizeMinidump env2 p w')
          = fst (SymbolizeMinidump env2 p w) /\
          exists rest,
            effects (snd (SymbolizeMinidump env2 p w'))
            = (effects w' ++ EUpload p :: rest)%list /\
            ((forall e, cloud_storage_Insert env2 p = Raise e ->
                        exists msg, e = CloudStorageError msg) ->
             In (ESymbolize p) rest))) /\
    (forall msg,
       fst (SymbolizeMinidump env p w) = Ret (false, msg) ->
       _most_recent_symbolized_minidump_paths (self w')
       = _most_recent_symbolized_minidump_paths (self w) /\
       (forall env',
          UnsymbolizedDumps env' w' = UnsymbolizedDumps env' w /\
          (p ∈ UnsymbolizedDumps env' w -> p ∈ UnsymbolizedDumps env' w'))).
Proof.
  intros env p w w'. split.
  - intros stack Hok. split.
    + intros env'. rewrite UnsymbolizedDumps_eq. subst w'.
      rewrite (SymbolizeMinidump_success env p w stack Hok).
      intros Hin. apply elem_of_difference in Hin as [_ Hnot].
      apply Hnot, elem_of_union_l, elem_of_singleton. reflexivity.
    + intros env2. split.
      * apply SymbolizeMinidump_outcome.
      * apply SymbolizeMinidump_effects.
  - intros msg Hfail.
    assert (Hself : self w' = self w)
      by (apply (SymbolizeMinidump_failure env p w msg Hfail)).
    split; [rewrite Hself; reflexivity|].
    intros env'. rewrite !UnsymbolizedDumps_eq, Hself.
    split; [reflexivity | tauto].
Qed.

Lemma SymbolizeMinidump_memoizes_success_only_witness :
  fst (SymbolizeMinidump one_dump "/tmp/minidumps/a.dmp" started)
  = Ret (true, "#0 main()") /\
  ("/tmp/minidumps/a.dmp"
   ∉ UnsymbolizedDumps one_dump
       (snd (SymbolizeMinidump one_dump "/tmp/minidumps/a.dmp" started))) /\
  fst (SymbolizeMinidump stubborn_browser "/tmp/minidumps/a.dmp" started)
  = Ret (false,
         "Failed to symbolize minidump. Raw stack is uploaded to cloud storage: gs://bucket/dump.") /\
  UnsymbolizedDumps one_dump
    (snd (SymbolizeMinidump stubborn_browser "/tmp/minidumps/a.dmp" started))
  = UnsymbolizedDumps one_dump started.
Proof.
  destruct (SymbolizeMinidump_memoizes_success_only one_dump
              "/tmp/minidumps/a.dmp" started) as [Hok _].
  destruct (SymbolizeMinidump_memoizes_success_only stubborn_browser
              "/tmp/minidumps/a.dmp" started) as [_ Hfail].
  split; [reflexivity|].
  split; [exact (proj1 (Hok _ eq_refl) one_dump)|].
  split; [reflexivity|].
  exact (proj1 (proj2 (Hfail _ eq_refl) one_dump)).
Defined.

(** ** The control-port file *)

Lemma readlines_nonempty content :
  content <> EmptyString -> PyStr.readlines content <> [].
Proof.
  destruct content as [|c rest]; [contradiction|]. intros _. simpl.
  destruct (Ascii.eqb c PyStr.LF); [discriminate|].
  destruct (PyStr.readlines rest); discriminate.
Qed.

(** C8 (as amended).  Reading the control-port file when it is absent or
    has zero bytes yields the retryable "not ready" condition
    ([EnvironmentError]), neither another error nor a successful read.
    Reading it when its first line, stripped, is a decimal integer
    succeeds and returns that integer with the right-stripped second line,
    or none when there is no second line.  A file that has bytes but whose
    first line is not a decimal integer makes the read fail with the
    [ValueError] of the conversion. *)
Theorem FindDevToolsPortAndTarget_cases :
  forall (env : Env) (b : DesktopBrowserBackend),
    let file := fs_read env (_GetDevToolsActivePortPath b) in
    (file = None \/ file = Some EmptyString ->
     not_ready (_FindDevToolsPortAndTarget env b)) /\
    (forall content line0 rest,
       file = Some content ->
       map PyStr.rstrip (PyStr.readlines content) = line0 :: rest ->
       (forall port, PyStr.int line0 = Some port ->
                     _FindDevToolsPortAndTarget env b
                     = Ret (port, head rest)) /\
       (PyStr.int line0 = None ->
        exists msg,
          _FindDevToolsPortAndTarget env b = Raise (ValueError msg))) /\
    (forall content,
       file = Some content -> content <> EmptyString ->
       exists line0 rest,
         map PyStr.rstrip (PyStr.readlines content) = line0 :: rest).
Proof.
  intros env b file. subst file. unfold _FindDevToolsPortAndTarget.
  split; [|split].
  - intros [-> | ->]; eexists; reflexivity.
  - intros content line0 rest -> Hlines.
    assert (Hsize : (0 <? Z.of_nat (String.length content)) = true).
    { destruct content; [discriminate Hlines|]. reflexivity. }
    rewrite Hsize, Hlines.
    split.
    + intros port ->. reflexivity.
    + intros ->. eexists; reflexivity.
  - intros content _ Hne.
    destruct (PyStr.readlines content) as [|l ls] eqn:E.
    + exfalso. exact (readlines_nonempty content Hne E).
    + eexists _, _. reflexivity.
Qed.

Lemma FindDevToolsPortAndTarget_cases_witness :
  fs_read (with_port_file (Some EmptyString))
    (_GetDevToolsActivePortPath (self started)) = Some EmptyString /\
  not_ready
    (_FindDevToolsPortAndTarget (with_port_file (Some EmptyString))
       (self started)) /\
  PyStr.int "9222" = Some 9222%Z /\
  _FindDevToolsPortAndTarget
    (with_port_file
       (Some ("9222" ++ String PyStr.LF "/devtools/browser/abc")))
    (self started)
  = Ret (9222%Z, Some "/devtools/browser/abc").
Proof.
  destruct (FindDevToolsPortAndTarget_cases
              (with_port_file (Some EmptyString)) (self started))
    as [Hempty _].
  destruct (FindDevToolsPortAndTarget_cases
              (with_port_file
                 (Some ("9222" ++ String PyStr.LF "/devtools/browser/abc")))
              (self started))
    as (_ & Hport & _).
  split; [reflexivity|].
  split; [exact (Hempty (or_intror eq_refl))|].
  split; [reflexivity|].
  exact (proj1 (Hport _ "9222" ["/devtools/browser/abc"] eq_refl eq_refl)
           9222%Z eq_refl).
Defined.

(** C8, as the claim states it, fails on a file that has a non-empty line
    which is not a port number: the read neither succeeds nor reports "not
    ready", it raises the [ValueError] of [int()]. *)
Lemma FindDevToolsPortAndTarget_nonempty_line_not_enough :
  has_nonempty_line "abc" = true /\
  _FindDevToolsPortAndTarget (with_port_file (Some "abc")) (self started)
  = Raise (ValueError "invalid literal for int() with base 10: 'abc'").
Proof. split; reflexivity. Qed.

(** ** Waiting for a minidump *)

Local Open Scope nat_scope.

(** [n] iterations that find no qualifying dump, then the deadline. *)
Lemma poll_loop_idle env (timeout_s oldest_ts start_time : Z) :
  forall (n fuel k : nat) (explanation : list string) (w : World),
    (forall j, j < n ->
               (time_time env (S (k + j)) - start_time < timeout_s)%Z) ->
    (forall j, j < n ->
               qualifying env oldest_ts (GetMostRecentMinidump env (k + j))
               = false) ->
    (timeout_s <= time_time env (S (k + n)) - start_time)%Z ->
    n < fuel ->
    exists explanation',
      poll_loop env fuel k start_time timeout_s oldest_ts explanation w
      = (Ret (Some None, explanation'),
         mkWorld (self w)
           (effects w ++ idle_polls (_tmp_minidump_dir (self w)) n
            ++ [ETime])).
Proof.
  induction n as [|n IH]; intros fuel k explanation w Hclock Hnone Hend Hfuel;
    (destruct fuel as [|fuel]; [lia|]); simpl; py_simpl.
  - rewrite Nat.add_0_r in Hend.
    assert (E : (time_time env (S k) - start_time <? timeout_s)%Z = false)
      by (apply Z.ltb_ge; exact Hend).
    rewrite E. simpl. eexists; reflexivity.
  - assert (E : (time_time env (S k) - start_time <? timeout_s)%Z = true).
    { apply Z.ltb_lt. specialize (Hclock 0 ltac:(lia)).
      rewrite Nat.add_0_r in Hclock. exact Hclock. }
    rewrite E. simpl.
    pose proof (Hnone 0 ltac:(lia)) as Hq. rewrite Nat.add_0_r in Hq.
    unfold qualifying in Hq.
    destruct (GetMostRecentMinidump env k) as [dump_path explanation'].
    simpl in Hq.
    assert (Hrec :
      exists explanation'',
        poll_loop env fuel (S k) start_time timeout_s oldest_ts explanation'
          (mkWorld (self w)
             ((effects w ++ [ETime])
              ++ [EGetMostRecentMinidump (_tmp_minidump_dir (self w))]))
        = (Ret (Some None, explanation''),
           mkWorld (self w)
             (effects w
              ++ (ETime :: EGetMostRecentMinidump
                             (_tmp_minidump_dir (self w))
                    :: idle_polls (_tmp_minidump_dir (self w)) n)
              ++ [ETime]))).
    { destruct (IH fuel (S k) explanation'
                  (mkWorld (self w)
                     ((effects w ++ [ETime])
                      ++ [EGetMostRecentMinidump
                            (_tmp_minidump_dir (self w))])))
        as [x Hx].
      - intros j Hj. specialize (Hclock (S j) ltac:(lia)).
        replace (S k + j) with (k + S j) by lia. exact Hclock.
      - intros j Hj. specialize (Hnone (S j) ltac:(lia)).
        replace (S k + j) with (k + S j) by lia. exact Hnone.
      - replace (S k + n) with (k + S n) by lia. exact Hend.
      - lia.
      - exists x. rewrite Hx. simpl. f_equal. f_equal.
        rewrite <- !app_assoc. reflexivity. }
    destruct (truthy dump_path); simpl in *.
    + apply negb_false_iff in Hq. rewrite Hq. exact Hrec.
    + exact Hrec.
Qed.

(** The loop ends by its deadline: once the timeout has elapsed at some
    clock reading, enough fuel lets the loop return, whatever the polls
    find. *)
Lemma poll_loop_ends_by_deadline env (timeout_s oldest_ts start_time : Z) :
  forall (n fuel k : nat) (explanation : list string) (w : World),
    (timeout_s <= time_time env (S (k + n)) - start_time)%Z ->
    n < fuel ->
    exists result explanation' w',
      poll_loop env fuel k start_time timeout_s oldest_ts explanation w
      = (Ret (Some result, explanation'), w').
Proof.
  induction n as [|n IH]; intros fuel k explanation w Hend Hfuel;
    (destruct fuel as [|fuel]; [lia|]); simpl; py_simpl.
  - rewrite Nat.add_0_r in Hend.
    apply Z.ltb_ge in Hend. rewrite Hend. simpl.
    eexists _, _, _; reflexivity.
  - destruct (time_time env (S k) - start_time <? timeout_s)%Z; simpl;
      [|eexists _, _, _; reflexivity].
    destruct (GetMostRecentMinidump env k) as [dump_path explanation'].
    assert (Hend' : (timeout_s
                     <= time_time env (S (S k + n)) - start_time)%Z)
      by (replace (S k + n) with (k + S n) by lia; exact Hend).
    destruct (truthy dump_path); simpl.
    + destruct (getmtime env (default "" dump_path) <? oldest_ts)%Z.
      * apply IH; [exact Hend' | lia].
      * eexists _, _, _; reflexivity.
    + apply IH; [exact Hend' | lia].
Qed.

(** C9 (as amended).  The polling loop of
    [GetRecentMinidumpPathWithTimeout] does not sleep or back off: an
    iteration that finds no qualifying dump is followed at once by the
    next deadline test and the next poll.  The wait is bounded by its
    deadline only: when the first [n] polls find no qualifying dump and
    the timeout has elapsed at the clock reading after them, the call
    returns none after exactly [n] polls made back to back. *)
Theorem GetRecentMinidumpPathWithTimeout_polls_until_deadline :
  forall (env : Env) (w : World) (timeout_s oldest_ts : Z) (n fuel : nat),
    (0 < timeout_s)%Z ->
    (0 <= oldest_ts)%Z ->
    (forall j, j < n ->
               (time_time env (S j) - time_time env 0 < timeout_s)%Z) ->
    (forall j, j < n ->
               qualifying env oldest_ts (GetMostRecentMinidump env j)
               = false) ->
    (timeout_s <= time_time env (S n) - time_time env 0)%Z ->
    n < fuel ->
    let r := GetRecentMinidumpPathWithTimeout env fuel timeout_s oldest_ts w in
    fst r = Ret (Some None) /\
    self (snd r) = self w /\
    exists msg,
      effects (snd r)
      = (effects w
         ++ ETime :: idle_polls (_tmp_minidump_dir (self w)) n
         ++ [ETime; ELog msg])%list.
Proof.
  intros env w timeout_s oldest_ts n fuel Htimeout Holdest Hclock Hnone Hend
    Hfuel r.
  subst r. unfold GetRecentMinidumpPathWithTimeout. py_simpl.
  apply Z.ltb_lt in Htimeout. apply Z.leb_le in Holdest.
  rewrite Htimeout, Holdest. simpl.
  destruct (poll_loop_idle env timeout_s oldest_ts (time_time env 0) n fuel 0
              ["No explanation returned."]
              (mkWorld (self w) (effects w ++ [ETime])))
    as [explanation' Hloop]; try assumption.
  rewrite Hloop. simpl. repeat split.
  eexists. rewrite <- !app_assoc. reflexivity.
Qed.

Lemma GetRecentMinidumpPathWithTimeout_polls_until_deadline_witness :
  (0 < 3)%Z /\ (0 <= 0)%Z /\
  (3 <= time_time stubborn_browser 3 - time_time stubborn_browser 0)%Z /\
  2 < 10 /\
  fst (GetRecentMinidumpPathWithTimeout stubborn_browser 10 3 0 started)
  = Ret (Some None).
Proof.
  split; [lia|]. split; [lia|]. split; [simpl; lia|]. split; [lia|].
  refine (proj1 (GetRecentMinidumpPathWithTimeout_polls_until_deadline
                   stubborn_browser started 3 0 2 10 _ _ _ _ _ _)).
  - lia.
  - lia.
  - intros j Hj. destruct j as [|[|j]]; simpl; lia.
  - intros j Hj. reflexivity.
  - simpl; lia.
  - lia.
Defined.

(** C9, as the claim states it, fails: while the finder reports no dump
    the loop polls it again at once, with no sleep between two polls. *)
Lemma GetRecentMinidumpPathWithTimeout_polls_without_sleeping :
  fst (GetRecentMinidumpPathWithTimeout stubborn_browser 10 3 0 started)
  = Ret (Some None) /\
  effects
    (snd (GetRecentMinidumpPathWithTimeout stubborn_browser 10 3 0 started))
  = [ETime;
     ETime; EGetMostRecentMinidump (Some "/tmp/minidumps");
     ETime; EGetMostRecentMinidump (Some "/tmp/minidumps");
     ETime; ELog "No minidump found"] /\
  sleeps_between_polls false
    (effects
       (snd (GetRecentMinidumpPathWithTimeout stubborn_browser 10 3 0
               started)))
  = false.
Proof. repeat split. Qed.

End backend_properties.

(* ===================================================================== *)
(** * Further properties of the result ledger                             *)
(* ===================================================================== *)

Module ledger_coverage.
Import story_run page_test_results ledger_spec ledger_coverage_spec.
Import ledger_properties.

(** ** Interruptions *)

(** An interruption reason, once there, survives every call. *)
Lemma interruption_kept_by_call (c : Call) self kept :
  _interruption self = Some kept -> kept <> EmptyString ->
  _interruption (after c self) = Some kept.
Proof.
  intros H Hne.
  assert (Hor : forall y, py_or (Some kept) y = kept).
  { intros y. unfold py_or. destruct (String.eqb kept "") eqn:E;
      [|reflexivity]. apply String.eqb_eq in E. contradiction. }
  by_call c self; split_matches; rewrite ?H; try exact H;
    try reflexivity; unfold py_or; rewrite Hor; reflexivity.
Qed.

Lemma interruption_kept_by_calls (cs : list Call) : forall self reason,
  _interruption self = Some reason -> reason <> EmptyString ->
  _interruption (after_all cs self) = Some reason.
Proof.
  induction cs as [|c cs IH]; intros self reason H Hne; [exact H|].
  simpl. apply IH; [|exact Hne]. apply interruption_kept_by_call; assumption.
Qed.

(** X1.  [InterruptBenchmark] with a non-empty reason on a ledger that is
    not finalized returns, logs the reason as fatal and leaves the ledger
    interrupted.  The reason it keeps is the given one when the ledger was
    not interrupted before and the earlier one when it was, and no later
    call changes it. *)
Theorem InterruptBenchmark_first_reason_wins :
  forall (self : PageTestResults) (reason : string) (later : list Call),
    _finalized self = false ->
    reason <> EmptyString ->
    let self1 := snd (InterruptBenchmark reason self) in
    fst (InterruptBenchmark reason self) = Ret tt /\
    logging_records self1 = (logging_records self ++ [(FATAL, reason)])%list /\
    (_interruption self = None ->
     benchmark_interrupted self1 = true /\
     benchmark_interruption self1 = Some reason /\
     benchmark_interruption (after_all later self1) = Some reason) /\
    (forall first,
       _interruption self = Some first -> first <> EmptyString ->
       benchmark_interrupted self1 = true /\
       benchmark_interruption self1 = Some first /\
       benchmark_interruption (after_all later self1) = Some first).
Proof.
  intros self reason later Hfin Hne self1.
  assert (Hr : String.eqb reason "" = false) by (apply String.eqb_neq, Hne).
  assert (E : InterruptBenchmark reason self
              = (Ret tt,
                 set_interruption (Some (py_or (_interruption self) reason))
                   (set_logging_records
                      (logging_records self ++ [(FATAL, reason)]) self))).
  { unfold InterruptBenchmark, log, finalized. py_simpl.
    rewrite Hfin; simpl. rewrite Hr; simpl. reflexivity. }
  subst self1. rewrite E. simpl.
  split; [reflexivity|]. split; [reflexivity|]. split.
  - intros Hnone. unfold benchmark_interrupted, benchmark_interruption.
    simpl. rewrite Hnone. simpl. rewrite Hr.
    repeat split. apply interruption_kept_by_calls; [|exact Hne].
    reflexivity.
  - intros first Hfirst Hfne.
    assert (Hf : String.eqb first "" = false)
      by (apply String.eqb_neq, Hfne).
    unfold benchmark_interrupted, benchmark_interruption.
    simpl. rewrite Hfirst. simpl. rewrite Hf. simpl. rewrite Hf.
    repeat split. apply interruption_kept_by_calls; [|exact Hfne].
    reflexivity.
Qed.

Lemma InterruptBenchmark_first_reason_wins_witness :
  _finalized fresh = false /\
  "browser crashed" <> EmptyString /\
  _interruption fresh = None /\
  benchmark_interruption
    (after_all [CInterruptBenchmark "second failure"; CFinalize None]
       (snd (InterruptBenchmark "browser crashed" fresh)))
  = Some "browser crashed".
Proof.
  split; [reflexivity|]. split; [discriminate|]. split; [reflexivity|].
  pose proof (InterruptBenchmark_first_reason_wins fresh "browser crashed"
                [CInterruptBenchmark "second failure"; CFinalize None]
                eq_refl ltac:(discriminate)) as H.
  exact (proj2 (proj2 (proj1 (proj2 (proj2 H)) eq_refl))).
Defined.

(** X2.  [InterruptBenchmark] on a finalized ledger, or with an empty
    reason, fails with a usage-precondition error and leaves the ledger as
    it was: nothing is logged and no reason is stored. *)
Theorem InterruptBenchmark_usage_errors :
  forall (self : PageTestResults) (reason : string),
    _finalized self = true \/ reason = EmptyString ->
    usage_error (fst (InterruptBenchmark reason self)) /\
    snd (InterruptBenchmark reason self) = self.
Proof.
  intros self reason H. unfold InterruptBenchmark, log, finalized. py_simpl.
  destruct (_finalized self) eqn:Hfin; simpl.
  - split; [eexists; reflexivity | reflexivity].
  - destruct H as [H | ->]; [discriminate|]. simpl.
    split; [eexists; reflexivity | reflexivity].
Qed.

Lemma InterruptBenchmark_usage_errors_witness :
  _finalized finalized_ledger = true /\
  snd (InterruptBenchmark "too late" finalized_ledger) = finalized_ledger /\
  snd (InterruptBenchmark EmptyString fresh) = fresh.
Proof.
  split; [reflexivity|]. split.
  - exact (proj2 (InterruptBenchmark_usage_errors finalized_ledger "too late"
                    (or_introl eq_refl))).
  - exact (proj2 (InterruptBenchmark_usage_errors fresh EmptyString
                    (or_intror eq_refl))).
Defined.

(** ** Calls that need a run in progress *)

(** X3.  [AddMeasurement], [Fail], [Skip], [CreateArtifact],
    [CaptureArtifact] and [AddTraces] called while no story run is in
    progress fail with a usage-precondition error and leave the ledger as
    it was; in particular [AddMeasurement] registers no unit. *)
Theorem run_scoped_calls_need_a_run :
  forall (c : Call) (self : PageTestResults),
    needs_run c = true ->
    _current_story_run self = None ->
    usage_error (fst (call c self)) /\ after c self = self.
Proof.
  intros c self Hc Hcur.
  destruct c; try discriminate Hc; unfold after, call;
    unfold AddMeasurement, Fail, Skip, CreateArtifact, CaptureArtifact,
      AddTraces; py_simpl; rewrite Hcur; simpl;
    (split; [eexists; reflexivity | reflexivity]).
Qed.

Lemma run_scoped_calls_need_a_run_witness :
  needs_run (CAddMeasurement "a" "seconds" (PNum 3) None) = true /\
  _current_story_run fresh = None /\
  after (CAddMeasurement "a" "seconds" (PNum 3) None) fresh = fresh.
Proof.
  split; [reflexivity|]. split; [reflexivity|].
  exact (proj2 (run_scoped_calls_need_a_run
                  (CAddMeasurement "a" "seconds" (PNum 3) None) fresh
                  eq_refl eq_refl)).
Defined.

(** ** Who changes what *)

Lemma completed_runs_unchanged (c : Call) self :
  is_DidRunPage c = false ->
  _all_story_runs (after c self) = _all_story_runs self.
Proof.
  intros Hc. by_call c self; try discriminate Hc; split_matches;
    reflexivity.
Qed.

(** X4.  The completed-run sequence changes in [DidRunPage] only: every
    other call, returning or raising, leaves it as it was.  A [DidRunPage]
    made while a run is in progress returns, appends exactly that run,
    with its end time stamped, and leaves no run in progress. *)
Theorem completed_runs_change_in_DidRunPage_only :
  forall (self : PageTestResults),
    (forall c, is_DidRunPage c = false ->
               _all_story_runs (after c self) = _all_story_runs self) /\
    (forall now page run,
       _current_story_run self = Some run ->
       fst (DidRunPage now page self) = Ret tt /\
       _all_story_runs (snd (DidRunPage now page self))
       = (_all_story_runs self ++ [set_end_time (Some now) run])%list /\
       _current_story_run (snd (DidRunPage now page self)) = None).
Proof.
  intros self. split.
  - intros c Hc. apply completed_runs_unchanged, Hc.
  - intros now page run Hrun. unfold DidRunPage, on_current_story_run,
      report, Finish. py_simpl. rewrite Hrun. simpl. rewrite Hrun. simpl.
    repeat split.
Qed.

Lemma completed_runs_change_in_DidRunPage_only_witness :
  is_DidRunPage (CFail (FailureStr "message")) = false /\
  _all_story_runs (after (CFail (FailureStr "message")) running)
  = _all_story_runs running /\
  (exists run, _current_story_run running = Some run) /\
  length (_all_story_runs (snd (DidRunPage 2 foo_page running))) = 1%nat.
Proof.
  destruct (completed_runs_change_in_DidRunPage_only running) as [Hframe Hdid].
  split; [reflexivity|].
  split; [exact (Hframe (CFail (FailureStr "message")) eq_refl)|].
  split; [eexists; reflexivity|].
  destruct (Hdid 2%Z foo_page _ eq_refl) as (_ & Hall & _).
  rewrite Hall. reflexivity.
Defined.

(** X5.  Serialization is deferred to [Finalize]: no other call writes to
    the results file or closes it. *)
Theorem results_stream_changes_in_Finalize_only :
  forall (c : Call) (self : PageTestResults),
    is_Finalize c = false ->
    _results_stream (after c self) = _results_stream self.
Proof.
  intros c self Hc. by_call c self; try discriminate Hc; split_matches;
    reflexivity.
Qed.

Lemma results_stream_changes_in_Finalize_only_witness :
  is_Finalize (CDidRunPage 2 foo_page) = false /\
  _results_stream (after (CDidRunPage 2 foo_page) running)
  = Some (mkStream [] false).
Proof.
  split; [reflexivity|].
  rewrite (results_stream_changes_in_Finalize_only (CDidRunPage 2 foo_page)
             running eq_refl).
  reflexivity.
Defined.

(** ** [Finalize] without a cause *)

(** X6.  On a ledger that arose from the constructor, is not finalized
    and has no run in progress, [Finalize] without a cause returns and
    finalizes the ledger; the results file then holds exactly one record
    per completed run, in completion order, and is closed.  The completed
    runs, the units and the interruption are left as they were. *)
Theorem Finalize_writes_one_record_per_completed_run :
  forall (self : PageTestResults),
    reachable self ->
    _finalized self = false ->
    _current_story_run self = None ->
    let self' := snd (Finalize None self) in
    fst (Finalize None self) = Ret tt /\
    finalized self' = true /\
    _all_story_runs self' = _all_story_runs self /\
    _measurement_units self' = _measurement_units self /\
    _interruption self' = _interruption self /\
    _results_stream self'
    = match _results_stream self with
      | Some _ => Some (mkStream (map AsDict (_all_story_runs self)) true)
      | None => None
      end.
Proof.
  intros self Hreach Hfin Hcur self'.
  destruct (reachable_invariant self Hreach) as [_ H2 _ _ _].
  specialize (H2 Hfin).
  subst self'. unfold Finalize, report, finalized.
  py_simpl. rewrite Hfin; simpl. rewrite Hcur; simpl.
  destruct (_results_stream self) as [f|] eqn:Hstream.
  - destruct (H2 f eq_refl) as [Hclosed Hwritten].
    match goal with
    | |- context [for_each ?rs ?body ?s] =>
        change (for_each rs body s) with (write_all rs s);
        rewrite (write_all_open rs s f Hstream Hclosed)
    end.
    unfold close_results_stream. py_simpl. rewrite Hwritten.
    repeat split.
  - match goal with
    | |- context [for_each ?rs ?body ?s] =>
        change (for_each rs body s) with (write_all rs s);
        rewrite (write_all_no_stream rs s Hstream)
    end.
    unfold close_results_stream. py_simpl. rewrite Hstream.
    repeat split; exact Hstream.
Qed.

Lemma reachable_two_stories : reachable (after_all (alternating two_stories) fresh).
Proof. apply reachable_after_all, reachable_init. Qed.

Lemma Finalize_writes_one_record_per_completed_run_witness :
  reachable (after_all (alternating two_stories) fresh) /\
  _finalized (after_all (alternating two_stories) fresh) = false /\
  _current_story_run (after_all (alternating two_stories) fresh) = None /\
  _results_stream
    (snd (Finalize None (after_all (alternating two_stories) fresh)))
  = Some (mkStream
            (map AsDict
               (_all_story_runs (after_all (alternating two_stories) fresh)))
            true).
Proof.
  split; [exact reachable_two_stories|].
  split; [reflexivity|]. split; [reflexivity|].
  exact (proj2 (proj2 (proj2 (proj2 (proj2
    (Finalize_writes_one_record_per_completed_run _ reachable_two_stories
       eq_refl eq_refl)))))).
Defined.

(** X7.  [Finalize] without a cause while a story run is in progress fails
    with a usage-precondition error and leaves the ledger as it was: it is
    not finalized, the run stays in progress and nothing is written. *)
Theorem Finalize_without_cause_needs_no_run_in_progress :
  forall (self : PageTestResults) (run : StoryRun),
    _finalized self = false ->
    _current_story_run self = Some run ->
    usage_error (fst (Finalize None self)) /\
    snd (Finalize None self) = self.
Proof.
  intros self run Hfin Hrun. unfold Finalize, finalized. py_simpl.
  rewrite Hfin; simpl. rewrite Hrun; simpl.
  split; [eexists; reflexivity | reflexivity].
Qed.

Lemma Finalize_without_cause_needs_no_run_in_progress_witness :
  _finalized running = false /\
  (exists run, _current_story_run running = Some run) /\
  snd (Finalize None running) = running.
Proof.
  split; [reflexivity|]. split; [eexists; reflexivity|].
  exact (proj2 (Finalize_without_cause_needs_no_run_in_progress running _
                  eq_refl eq_refl)).
Defined.

(** ** After [Finalize] *)

Lemma finalized_frozen_by_call (c : Call) self :
  _finalized self = true ->
  _current_story_run self = None ->
  _finalized (after c self) = true /\
  _current_story_run (after c self) = None /\
  _all_story_runs (after c self) = _all_story_runs self /\
  _results_stream (after c self) = _results_stream self /\
  _measurement_units (after c self) = _measurement_units self /\
  _interruption (after c self) = _interruption self /\
  (is_Finalize c = false -> is_AddSharedDiagnostics c = false ->
   usage_error (fst (call c self)) /\ after c self = self).
Proof.
  intros Hfin Hcur.
  destruct c; unfold after, call;
    try (match goal with
         | |- context [AddSharedDiagnostics ?a ?b ?c ?d ?e ?f ?g self] =>
             destruct (AddSharedDiagnostics_frame a b c d e f g self)
               as [v ->]; simpl;
             repeat split; try assumption; discriminate
         end);
    unfold Finalize, WillRunPage, DidRunPage, InterruptBenchmark,
      AddMeasurement, Fail, Skip, CreateArtifact, CaptureArtifact,
      AddTraces, finalized; py_simpl; rewrite ?Hfin; simpl;
    rewrite ?Hcur; simpl;
    repeat split; try assumption; try discriminate;
    try (eexists; reflexivity).
Qed.

(** X8.  A finalized ledger is frozen.  On a ledger that arose from the
    constructor and was finalized, no sequence of calls changes the
    completed runs, the results file, the units or the interruption, and
    the ledger stays finalized with no run in progress; every single call
    other than [Finalize] and [AddSharedDiagnostics] fails with a
    usage-precondition error and changes nothing. *)
Theorem finalized_ledger_is_frozen :
  forall (self : PageTestResults) (later : list Call),
    reachable self ->
    _finalized self = true ->
    (_finalized (after_all later self) = true /\
     _current_story_run (after_all later self) = None /\
     _all_story_runs (after_all later self) = _all_story_runs self /\
     _results_stream (after_all later self) = _results_stream self /\
     _measurement_units (after_all later self) = _measurement_units self /\
     _interruption (after_all later self) = _interruption self) /\
    (forall c,
       is_Finalize c = false -> is_AddSharedDiagnostics c = false ->
       usage_error (fst (call c self)) /\ after c self = self).
Proof.
  intros self later Hreach Hfin.
  assert (Hcur : _current_story_run self = None)
    by (apply (inv_finalized_no_run self (reachable_invariant self Hreach)),
          Hfin).
  split.
  - clear Hreach. revert self Hfin Hcur.
    induction later as [|c later IH]; intros self Hfin Hcur.
    + repeat split; assumption.
    + simpl.
      destruct (finalized_frozen_by_call c self Hfin Hcur)
        as (Hf & Hc & Ha & Hs & Hu & Hi & _).
      destruct (IH (after c self) Hf Hc) as (Hf' & Hc' & Ha' & Hs' & Hu' & Hi').
      repeat split; try assumption; congruence.
  - intros c. apply (finalized_frozen_by_call c self Hfin Hcur).
Qed.

Lemma reachable_finalized_ledger : reachable finalized_ledger.
Proof. apply reachable_after_all, reachable_init. Qed.

Lemma finalized_ledger_is_frozen_witness :
  reachable finalized_ledger /\
  _finalized finalized_ledger = true /\
  _all_story_runs
    (after_all [CWillRunPage 9 foo_page 1; CInterruptBenchmark "late"]
       finalized_ledger)
  = _all_story_runs finalized_ledger /\
  after (CWillRunPage 9 foo_page 1) finalized_ledger = finalized_ledger.
Proof.
  pose proof (finalized_ledger_is_frozen finalized_ledger
                [CWillRunPage 9 foo_page 1; CInterruptBenchmark "late"]
                reachable_finalized_ledger eq_refl) as [Hseq Hone].
  split; [exact reachable_finalized_ledger|]. split; [reflexivity|].
  split; [exact (proj1 (proj2 (proj2 Hseq)))|].
  exact (proj2 (Hone (CWillRunPage 9 foo_page 1) eq_refl eq_refl)).
Defined.

(** ** Derived aggregates *)

Lemma existsb_iff_counted (p : StoryRun -> bool) (runs : list StoryRun) :
  existsb p runs = true
  <-> (0 < length (filter (fun r => p r = true) runs))%nat.
Proof.
  induction runs as [|r runs IH]; simpl.
  - split; [discriminate | lia].
  - destruct (p r) eqn:E.
    + rewrite filter_cons_True by exact E. simpl. split; [lia | reflexivity].
    + rewrite filter_cons_False by (rewrite E; discriminate). exact IH.
Qed.

(** X9.  The derived aggregates agree with each other and look at
    completed runs only: each [had_...] flag holds exactly when the
    matching [num_...] count is positive, and a call other than
    [DidRunPage] (a [Fail] or a [Skip] on the run in progress, for
    instance) changes none of the counts. *)
Theorem aggregates_count_completed_runs_only :
  forall (self : PageTestResults),
    (had_successes self = true <-> (0 < num_successful self)%nat) /\
    (had_failures self = true <-> (0 < num_failed self)%nat) /\
    (had_skips self = true <-> (0 < num_skipped self)%nat) /\
    (forall c, is_DidRunPage c = false ->
       num_successful (after c self) = num_successful self /\
       num_failed (after c self) = num_failed self /\
       num_skipped (after c self) = num_skipped self /\
       num_expected (after c self) = num_expected self /\
       had_failures (after c self) = had_failures self).
Proof.
  intros self. repeat split; try apply existsb_iff_counted;
    unfold num_successful, num_failed, num_skipped, num_expected,
      had_failures, count_runs;
    rewrite (completed_runs_unchanged c self H); reflexivity.
Qed.

Lemma aggregates_count_completed_runs_only_witness :
  is_DidRunPage (CFail (FailureStr "x")) = false /\
  num_failed (after (CFail (FailureStr "x")) running) = 0%nat /\
  num_failed
    (after (CDidRunPage 2 foo_page) (after (CFail (FailureStr "x")) running))
  = 1%nat.
Proof.
  destruct (aggregates_count_completed_runs_only running)
    as (_ & _ & _ & H).
  split; [reflexivity|].
  split; [|reflexivity].
  rewrite (proj1 (proj2 (H (CFail (FailureStr "x")) eq_refl))).
  reflexivity.
Defined.

(** ** Rejected samples *)

(** X10.  [AddMeasurement] is not atomic when the run rejects the
    samples: for a name without a unit, a call with samples that are not
    numeric raises [TypeError] and records nothing on the run, but the
    unit has been registered, so that a later call for the name with
    another unit raises the unit-mismatch error. *)
Theorem AddMeasurement_rejected_samples_register_the_unit :
  forall (self : PageTestResults) (name unit : string) (samples : pyval)
         (description : option string) (run : StoryRun),
    _current_story_run self = Some run ->
    _measurement_units self !! name = None ->
    numeric_samples samples = None ->
    let self' := snd (AddMeasurement name unit samples description self) in
    (exists msg,
       fst (AddMeasurement name unit samples description self)
       = Raise (TypeError msg)) /\
    _current_story_run self' = Some run /\
    _measurement_units self' = <[name := unit]> (_measurement_units self) /\
    (forall unit' samples' description',
       unit' <> unit ->
       AddMeasurement name unit' samples' description' self'
       = (Raise (unit_changed name unit unit'), self')).
Proof.
  intros self name unit samples d run Hrun Hnone Hnum self'.
  assert (E : AddMeasurement name unit samples d self
              = (Raise (TypeError "samples must be numeric"),
                 set_current_story_run (Some run)
                   (set_measurement_units
                      (<[name := unit]> (_measurement_units self)) self))).
  { unfold_methods; py_simpl. rewrite Hrun; simpl. rewrite Hnone; simpl.
    rewrite Hrun, Hnum. reflexivity. }
  subst self'. rewrite E. simpl.
  split; [eexists; reflexivity|]. split; [reflexivity|].
  split; [reflexivity|].
  intros unit' samples' d' Hne.
  apply AddMeasurement_unit_changed; simpl; [reflexivity | | exact Hne].
  apply lookup_insert_eq.
Qed.

Lemma AddMeasurement_rejected_samples_register_the_unit_witness :
  (exists run, _current_story_run running = Some run) /\
  _measurement_units running !! "url" = None /\
  numeric_samples (PStr "foo") = None /\
  fst (AddMeasurement "url" "ms" (PNum 3) None
         (snd (AddMeasurement "url" "string" (PStr "foo") None running)))
  = Raise (unit_changed "url" "string" "ms").
Proof.
  split; [eexists; reflexivity|]. split; [reflexivity|].
  split; [reflexivity|].
  destruct (AddMeasurement_rejected_samples_register_the_unit running "url"
              "string" (PStr "foo") None _ eq_refl eq_refl eq_refl)
    as (_ & _ & _ & H).
  rewrite (H "ms" (PNum 3) None ltac:(discriminate)). reflexivity.
Defined.

(** ** Shared diagnostics *)

Lemma dict_get_dict_set_other {V} (k k' : string) (v : V) d :
  k <> k' -> dict_get k (dict_set k' v d) = dict_get k d.
Proof.
  intros Hne. apply String.eqb_neq in Hne.
  induction d as [|[k0 v0] d IH]; simpl.
  - rewrite Hne. reflexivity.
  - destruct (String.eqb k' k0) eqn:E; simpl.
    + apply String.eqb_eq in E. subst k0. rewrite Hne. reflexivity.
    + destruct (String.eqb k k0); [reflexivity | exact IH].
Qed.

Lemma dict_get_store_diagnostic info value d k :
  dict_get k (store_diagnostic info value d)
  = if String.eqb k info then stored value (dict_get k d)
    else dict_get k d.
Proof.
  unfold store_diagnostic, stored.
  destruct (String.eqb k info) eqn:E.
  - apply String.eqb_eq in E. subst k.
    destruct (shared_value value); [apply dict_get_dict_set | reflexivity].
  - apply String.eqb_neq in E.
    destruct (shared_value value);
      [apply dict_get_dict_set_other; exact E | reflexivity].
Qed.

Lemma add_diagnostic_stores info value self :
  add_diagnostic info value self
  = (Ret tt,
     set_diagnostics (store_diagnostic info value (_diagnostics self)) self).
Proof.
  unfold add_diagnostic, store_diagnostic, shared_value.
  destruct value as [[z|str|[|x l]|d]|]; py_simpl;
    rewrite ?set_diagnostics_same; reflexivity.
Qed.

Lemma AddSharedDiagnostics_stores a b c d e f g self :
  AddSharedDiagnostics a b c d e f g self
  = (Ret tt,
     set_diagnostics
       (store_diagnostic reserved_infos.OS_VERSIONS g
          (store_diagnostic reserved_infos.OS_NAMES f
             (store_diagnostic reserved_infos.DEVICE_IDS e
                (store_diagnostic reserved_infos.ARCHITECTURES d
                   (store_diagnostic reserved_infos.DOCUMENTATION_URLS c
                      (store_diagnostic reserved_infos.BUG_COMPONENTS b
                         (store_diagnostic reserved_infos.OWNERS a
                            (_diagnostics self))))))))
       self).
Proof.
  unfold AddSharedDiagnostics. cbn [for_each fst snd].
  unfold Py.bind, Py.ret.
  repeat (rewrite add_diagnostic_stores; cbn [_diagnostics set_diagnostics]).
  reflexivity.
Qed.

(** X11.  [AddSharedDiagnostics] never raises and changes the diagnostics
    only.  An argument that is [None] or the empty list leaves the entry
    of its name as it was, a list is stored as it is and any other value
    as a list of one element; entries under other names are untouched. *)
Theorem AddSharedDiagnostics_stores_lists :
  forall (self : PageTestResults)
         (owners bug_components documentation_urls architecture device_id
          os_name os_version : option pyval),
    let r := AddSharedDiagnostics owners bug_components documentation_urls
               architecture device_id os_name os_version self in
    let was := fun name => dict_get name (_diagnostics self) in
    let is_now := fun name => dict_get name (_diagnostics (snd r)) in
    fst r = Ret tt /\
    snd r = set_diagnostics (_diagnostics (snd r)) self /\
    is_now reserved_infos.OWNERS
    = stored owners (was reserved_infos.OWNERS) /\
    is_now reserved_infos.BUG_COMPONENTS
    = stored bug_components (was reserved_infos.BUG_COMPONENTS) /\
    is_now reserved_infos.DOCUMENTATION_URLS
    = stored documentation_urls (was reserved_infos.DOCUMENTATION_URLS) /\
    is_now reserved_infos.ARCHITECTURES
    = stored architecture (was reserved_infos.ARCHITECTURES) /\
    is_now reserved_infos.DEVICE_IDS
    = stored device_id (was reserved_infos.DEVICE_IDS) /\
    is_now reserved_infos.OS_NAMES
    = stored os_name (was reserved_infos.OS_NAMES) /\
    is_now reserved_infos.OS_VERSIONS
    = stored os_version (was reserved_infos.OS_VERSIONS) /\
    (forall name, ~ In name shared_info_names -> is_now name = was name).
Proof.
  intros self a b c d e f g r was is_now. subst r was is_now.
  rewrite AddSharedDiagnostics_stores. cbn [fst snd _diagnostics set_diagnostics].
  split; [reflexivity|]. split; [reflexivity|].
  repeat split; try (rewrite !dict_get_store_diagnostic; reflexivity).
  intros name Hnot. rewrite !dict_get_store_diagnostic.
  repeat match goal with
         | |- context [String.eqb name ?k] =>
             let E := fresh "E" in
             destruct (String.eqb name k) eqn:E;
             [ apply String.eqb_eq in E; exfalso; apply Hnot; subst name;
               unfold shared_info_names; simpl; tauto | ]
         end.
  reflexivity.
Qed.

Lemma AddSharedDiagnostics_stores_lists_witness :
  ~ In reserved_infos.BENCHMARKS shared_info_names /\
  dict_get reserved_infos.BENCHMARKS
    (_diagnostics
       (snd (AddSharedDiagnostics (Some (PList [PStr "test"])) None None
               (Some (PStr "arch")) None None None fresh)))
  = dict_get reserved_infos.BENCHMARKS (_diagnostics fresh) /\
  dict_get reserved_infos.ARCHITECTURES
    (_diagnostics
       (snd (AddSharedDiagnostics (Some (PList [PStr "test"])) None None
               (Some (PStr "arch")) None None None fresh)))
  = Some (PList [PStr "arch"]).
Proof.
  assert (Hnot : ~ In reserved_infos.BENCHMARKS shared_info_names).
  { unfold shared_info_names. simpl.
    intros [H|[H|[H|[H|[H|[H|[H|[]]]]]]]]; discriminate H. }
  pose proof (AddSharedDiagnostics_stores_lists fresh
                (Some (PList [PStr "test"])) None None (Some (PStr "arch"))
                None None None) as H.
  split; [exact Hnot|]. split.
  - exact (proj2 (proj2 (proj2 (proj2 (proj2 (proj2 (proj2 (proj2
             (proj2 H)))))))) _ Hnot).
  - exact (proj1 (proj2 (proj2 (proj2 (proj2 (proj2 H)))))).
Defined.

(** ** The benchmark's own diagnostics *)

Lemma diagnostics_unchanged (c : Call) self :
  is_AddSharedDiagnostics c = false ->
  _diagnostics (after c self) = _diagnostics self /\
  _benchmark_name (after c self) = _benchmark_name self /\
  _benchmark_description (after c self) = _benchmark_description self.
Proof.
  intros Hc. by_call c self; try discriminate Hc; split_matches;
    repeat split.
Qed.

Lemma store_diagnostic_lists info value d :
  Forall (fun kv => is_list (snd kv) = true) d ->
  Forall (fun kv => is_list (snd kv) = true) (store_diagnostic info value d).
Proof.
  intros H. unfold store_diagnostic.
  destruct (shared_value value) as [v|] eqn:Ev; [|exact H].
  assert (Hv : is_list v = true).
  { unfold shared_value in Ev.
    destruct value as [[z|str|[|x l]|dd]|]; inversion Ev; reflexivity. }
  induction H as [|[k0 v0] d H0 H IH]; simpl.
  - constructor; [exact Hv | constructor].
  - destruct (String.eqb info k0); constructor; try assumption.
Qed.

(** X12.  On every ledger that arose from the constructor, whatever was
    called on it, the diagnostics still carry the benchmark name and the
    benchmark description given to the constructor, each as a list of one
    string, and every diagnostics value is a list. *)
Theorem diagnostics_keep_the_benchmark :
  forall (self : PageTestResults),
    reachable self ->
    dict_get reserved_infos.BENCHMARKS (_diagnostics self)
    = Some (PList [PStr (benchmark_name self)]) /\
    dict_get reserved_infos.BENCHMARK_DESCRIPTIONS (_diagnostics self)
    = Some (PList [PStr (_benchmark_description self)]) /\
    Forall (fun kv => is_list (snd kv) = true) (_diagnostics self).
Proof.
  intros self Hreach. unfold benchmark_name.
  induction Hreach as [now od id name desc bucket label | c self Hreach IH].
  - simpl. repeat split. repeat constructor.
  - destruct IH as (Hname & Hdesc & Hlists).
    destruct (is_AddSharedDiagnostics c) eqn:Hc.
    + destruct c; try discriminate Hc. unfold after, call.
      rewrite AddSharedDiagnostics_stores.
      cbn [fst snd _diagnostics set_diagnostics _benchmark_name
           _benchmark_description].
      rewrite !dict_get_store_diagnostic. simpl.
      repeat split; try assumption.
      repeat apply store_diagnostic_lists. exact Hlists.
    + destruct (diagnostics_unchanged c self Hc) as (-> & -> & ->).
      repeat split; assumption.
Qed.

Lemma reachable_with_diagnostics :
  reachable
    (after (CAddSharedDiagnostics (Some (PList [PStr "test"])) None None
              (Some (PStr "arch")) None None None) fresh).
Proof. apply reachable_call, reachable_init. Qed.

Lemma diagnostics_keep_the_benchmark_witness :
  reachable
    (after (CAddSharedDiagnostics (Some (PList [PStr "test"])) None None
              (Some (PStr "arch")) None None None) fresh) /\
  dict_get reserved_infos.BENCHMARKS
    (_diagnostics
       (after (CAddSharedDiagnostics (Some (PList [PStr "test"])) None None
                 (Some (PStr "arch")) None None None) fresh))
  = Some (PList [PStr "(unknown benchmark)"]).
Proof.
  split; [exact reachable_with_diagnostics|].
  exact (proj1 (diagnostics_keep_the_benchmark _ reachable_with_diagnostics)).
Defined.

End ledger_coverage.

(* ===================================================================== *)
(** * Further properties of the desktop browser backend                   *)
(* ===================================================================== *)

Module backend_coverage.
Import desktop_browser_backend backend_spec backend_coverage_spec.
Import backend_properties.

Local Open Scope nat_scope.

(** ** Waiting for a minidump *)

(** X13.  [GetRecentMinidumpPathWithTimeout] called with a timeout that is
    not positive or with a negative oldest timestamp fails its assertion
    before anything else: the clock is not read, the finder is not polled
    and nothing is logged. *)
Theorem GetRecentMinidumpPathWithTimeout_preconditions :
  forall (env : Env) (fuel : nat) (timeout_s oldest_ts : Z) (w : World),
    (timeout_s <= 0)%Z \/ (oldest_ts < 0)%Z ->
    exists msg,
      GetRecentMinidumpPathWithTimeout env fuel timeout_s oldest_ts w
      = (Raise (AssertionError msg), w).
Proof.
  intros env fuel timeout_s oldest_ts w H.
  unfold GetRecentMinidumpPathWithTimeout. py_simpl.
  destruct (0 <? timeout_s)%Z eqn:Ht; simpl; [|eexists; reflexivity].
  destruct (0 <=? oldest_ts)%Z eqn:Ho; simpl; [|eexists; reflexivity].
  apply Z.ltb_lt in Ht. apply Z.leb_le in Ho. lia.
Qed.

Lemma GetRecentMinidumpPathWithTimeout_preconditions_witness :
  ((0 <= 0)%Z \/ (0 < 0)%Z) /\
  snd (GetRecentMinidumpPathWithTimeout stubborn_browser 10 0 0 started)
  = started.
Proof.
  split; [left; lia|].
  destruct (GetRecentMinidumpPathWithTimeout_preconditions stubborn_browser
              10 0%Z 0%Z started (or_introl (Z.le_refl 0))) as [msg ->].
  reflexivity.
Defined.

(** What the loop returns when it returns a dump. *)
Lemma poll_loop_sound env (timeout_s oldest_ts start_time : Z) :
  forall (fuel k : nat) (explanation explanation' : list string)
         (w w' : World) (dump : option string),
    poll_loop env fuel k start_time timeout_s oldest_ts explanation w
    = (Ret (Some dump, explanation'), w') ->
    self w' = self w /\
    (truthy dump = true ->
     exists j,
       k <= j /\
       GetMostRecentMinidump env j = (dump, explanation') /\
       (oldest_ts <= getmtime env (default "" dump))%Z /\
       (time_time env (S j) - start_time < timeout_s)%Z /\
       (forall i, k <= i < j ->
                  qualifying env oldest_ts (GetMostRecentMinidump env i)
                  = false)) /\
    (truthy dump = false ->
     dump = None /\
     exists j,
       k <= j /\
       (timeout_s <= time_time env (S j) - start_time)%Z /\
       (forall i, k <= i < j ->
                  qualifying env oldest_ts (GetMostRecentMinidump env i)
                  = false)).
Proof.
  induction fuel as [|fuel IH]; intros k explanation explanation' w w' dump;
    simpl; py_simpl; [discriminate|].
  destruct (time_time env (S k) - start_time <? timeout_s)%Z eqn:Et; simpl.
  - destruct (GetMostRecentMinidump env k) as [dump_path expl] eqn:Ep.
    assert (Hstep : forall w0,
      self w0 = self w ->
      qualifying env oldest_ts (GetMostRecentMinidump env k) = false ->
      poll_loop env fuel (S k) start_time timeout_s oldest_ts expl w0
      = (Ret (Some dump, explanation'), w') ->
      self w' = self w /\
      (truthy dump = true ->
       exists j,
         k <= j /\
         GetMostRecentMinidump env j = (dump, explanation') /\
         (oldest_ts <= getmtime env (default "" dump))%Z /\
         (time_time env (S j) - start_time < timeout_s)%Z /\
         (forall i, k <= i < j ->
                    qualifying env oldest_ts (GetMostRecentMinidump env i)
                    = false)) /\
      (truthy dump = false ->
       dump = None /\
       exists j,
         k <= j /\
         (timeout_s <= time_time env (S j) - start_time)%Z /\
         (forall i, k <= i < j ->
                    qualifying env oldest_ts (GetMostRecentMinidump env i)
                    = false))).
    { intros w0 Hw0 Hq Hrec.
      destruct (IH _ _ _ _ _ _ Hrec) as (Hself & Hfound & Hnone).
      split; [congruence|]. split.
      - intros Ht. destruct (Hfound Ht) as (j & Hj & Hg & Hm & Hd & Hbefore).
        exists j. repeat split; try assumption; try lia.
        intros i Hi. destruct (Nat.eq_dec i k) as [->|Hne];
          [exact Hq | apply Hbefore; lia].
      - intros Ht. destruct (Hnone Ht) as (Hd & j & Hj & Hend & Hbefore).
        split; [exact Hd|]. exists j. repeat split; try assumption; try lia.
        intros i Hi. destruct (Nat.eq_dec i k) as [->|Hne];
          [exact Hq | apply Hbefore; lia]. }
    destruct (truthy dump_path) eqn:Etr; simpl.
    + destruct (getmtime env (default "" dump_path) <? oldest_ts)%Z eqn:Em.
      * apply Hstep; [reflexivity|].
        rewrite Ep. unfold qualifying. simpl. rewrite Etr, Em. reflexivity.
      * intros [= <- <- <-]. simpl. split; [reflexivity|]. split.
        -- intros _. exists k.
           split; [lia|]. split; [exact Ep|].
           split; [apply Z.ltb_ge; exact Em|].
           split; [apply Z.ltb_lt; exact Et|].
           intros i Hi. lia.
        -- rewrite Etr. discriminate.
    + apply Hstep; [reflexivity|].
      rewrite Ep. unfold qualifying. simpl. rewrite Etr. reflexivity.
  - intros [= <- <- <-]. simpl. split; [reflexivity|]. split; [discriminate|].
    intros _. split; [reflexivity|]. exists k.
    split; [lia|]. split; [apply Z.ltb_ge; exact Et|].
    intros i Hi. lia.
Qed.

(** X14.  Whatever [GetRecentMinidumpPathWithTimeout] returns is justified
    by the polls it made.  A returned dump is the first one the finder
    reported that has a path and is not older than [oldest_ts], and it was
    polled while the timeout had not elapsed; a returned none means the
    timeout elapsed after polls that found no such dump.  The backend's
    fields are left as they were. *)
Theorem GetRecentMinidumpPathWithTimeout_returns_first_qualifying :
  forall (env : Env) (fuel : nat) (timeout_s oldest_ts : Z) (w : World)
         (dump : option string),
    fst (GetRecentMinidumpPathWithTimeout env fuel timeout_s oldest_ts w)
    = Ret (Some dump) ->
    self (snd (GetRecentMinidumpPathWithTimeout env fuel timeout_s oldest_ts
                 w)) = self w /\
    (forall path, dump = Some path ->
       path <> EmptyString /\
       exists j explanation,
         GetMostRecentMinidump env j = (Some path, explanation) /\
         (oldest_ts <= getmtime env path)%Z /\
         (time_time env (S j) - time_time env 0 < timeout_s)%Z /\
         (forall i, i < j ->
                    qualifying env oldest_ts (GetMostRecentMinidump env i)
                    = false)) /\
    (dump = None ->
     exists j,
       (timeout_s <= time_time env (S j) - time_time env 0)%Z /\
       (forall i, i < j ->
                  qualifying env oldest_ts (GetMostRecentMinidump env i)
                  = false)).
Proof.
  intros env fuel timeout_s oldest_ts w dump.
  unfold GetRecentMinidumpPathWithTimeout. py_simpl.
  destruct (0 <? timeout_s)%Z; simpl; [|discriminate].
  destruct (0 <=? oldest_ts)%Z; simpl; [|discriminate].
  destruct (poll_loop env fuel 0 (time_time env 0) timeout_s oldest_ts
              ["No explanation returned."]
              (mkWorld (self w) (effects w ++ [ETime])))
    as [[[result explanation']|e] w'] eqn:Hloop; simpl; [|discriminate].
  intros [= ->].
  destruct (poll_loop_sound env timeout_s oldest_ts (time_time env 0) _ _ _ _
              _ _ _ Hloop) as (Hself & Hfound & Hnone).
  split; [exact Hself|]. split.
  - intros path ->.
    assert (Ht : truthy (Some path) = true).
    { destruct (truthy (Some path)) eqn:E; [reflexivity|].
      destruct (Hnone eq_refl) as [Hd _]. discriminate Hd. }
    split.
    + intros ->. discriminate Ht.
    + destruct (Hfound Ht) as (j & _ & Hg & Hm & Hd & Hbefore).
      exists j, explanation'. repeat split; try assumption.
      intros i Hi. apply Hbefore. lia.
  - intros ->. destruct (Hnone eq_refl) as (_ & j & _ & Hend & Hbefore).
    exists j. split; [exact Hend|]. intros i Hi. apply Hbefore. lia.
Qed.

Lemma GetRecentMinidumpPathWithTimeout_returns_first_qualifying_witness :
  fst (GetRecentMinidumpPathWithTimeout one_dump 10 3 0 started)
  = Ret (Some (Some "/tmp/minidumps/a.dmp")) /\
  self (snd (GetRecentMinidumpPathWithTimeout one_dump 10 3 0 started))
  = self started.
Proof.
  split; [reflexivity|].
  exact (proj1 (GetRecentMinidumpPathWithTimeout_returns_first_qualifying
                  one_dump 10 3%Z 0%Z started _ eq_refl)).
Defined.

(** [n] iterations that find no qualifying dump, then one that does. *)
Lemma poll_loop_finds env (timeout_s oldest_ts start_time : Z) :
  forall (n fuel k : nat) (explanation : list string) (w : World),
    (forall j, j <= n ->
               (time_time env (S (k + j)) - start_time < timeout_s)%Z) ->
    (forall j, j < n ->
               qualifying env oldest_ts (GetMostRecentMinidump env (k + j))
               = false) ->
    qualifying env oldest_ts (GetMostRecentMinidump env (k + n)) = true ->
    n < fuel ->
    poll_loop env fuel k start_time timeout_s oldest_ts explanation w
    = (Ret (Some (fst (GetMostRecentMinidump env (k + n))),
            snd (GetMostRecentMinidump env (k + n))),
       mkWorld (self w)
         (effects w ++ idle_polls (_tmp_minidump_dir (self w)) n
          ++ [ETime; EGetMostRecentMinidump (_tmp_minidump_dir (self w))])).
Proof.
  induction n as [|n IH]; intros fuel k explanation w Hclock Hnone Hfound Hfuel;
    (destruct fuel as [|fuel]; [lia|]); simpl; py_simpl.
  - rewrite Nat.add_0_r in Hfound |- *.
    pose proof (Hclock 0 ltac:(lia)) as Hc. rewrite Nat.add_0_r in Hc.
    apply Z.ltb_lt in Hc. rewrite Hc. simpl.
    unfold qualifying in Hfound.
    destruct (GetMostRecentMinidump env k) as [dump_path explanation'].
    simpl in *. apply andb_true_iff in Hfound as [Ht Hm].
    rewrite Ht. simpl. apply negb_true_iff in Hm. rewrite Hm.
    rewrite <- app_assoc. reflexivity.
  - pose proof (Hclock 0 ltac:(lia)) as Hc. rewrite Nat.add_0_r in Hc.
    apply Z.ltb_lt in Hc. rewrite Hc. simpl.
    pose proof (Hnone 0 ltac:(lia)) as Hq. rewrite Nat.add_0_r in Hq.
    unfold qualifying in Hq.
    destruct (GetMostRecentMinidump env k) as [dump_path explanation'].
    simpl in Hq.
    assert (Hrec :
      poll_loop env fuel (S k) start_time timeout_s oldest_ts explanation'
        (mkWorld (self w)
           ((effects w ++ [ETime])
            ++ [EGetMostRecentMinidump (_tmp_minidump_dir (self w))]))
      = (Ret (Some (fst (GetMostRecentMinidump env (k + S n))),
              snd (GetMostRecentMinidump env (k + S n))),
         mkWorld (self w)
           (effects w
            ++ (ETime :: EGetMostRecentMinidump (_tmp_minidump_dir (self w))
                  :: idle_polls (_tmp_minidump_dir (self w)) n)
            ++ [ETime;
                EGetMostRecentMinidump (_tmp_minidump_dir (self w))]))).
    { replace (k + S n) with (S k + n) in * by lia.
      rewrite (IH fuel (S k) explanation').
      - simpl. f_equal. f_equal. rewrite <- !app_assoc. reflexivity.
      - intros j Hj. specialize (Hclock (S j) ltac:(lia)).
        replace (S k + j) with (k + S j) by lia. exact Hclock.
      - intros j Hj. specialize (Hnone (S j) ltac:(lia)).
        replace (S k + j) with (k + S j) by lia. exact Hnone.
      - exact Hfound.
      - lia. }
    destruct (truthy dump_path); simpl in *.
    + apply negb_false_iff in Hq. rewrite Hq. exact Hrec.
    + exact Hrec.
Qed.

(** X15.  [GetRecentMinidumpPathWithTimeout] returns the first qualifying
    dump without waiting for the deadline: when the first [n] polls find
    no dump that has a path and is recent enough, poll [n] finds one and
    the timeout has not elapsed at the clock readings up to it, the call
    returns that dump after exactly [n + 1] polls and logs the explanation
    of the last poll. *)
Theorem GetRecentMinidumpPathWithTimeout_finds_dump :
  forall (env : Env) (w : World) (timeout_s oldest_ts : Z) (n fuel : nat),
    (0 < timeout_s)%Z ->
    (0 <= oldest_ts)%Z ->
    (forall j, j <= n ->
               (time_time env (S j) - time_time env 0 < timeout_s)%Z) ->
    (forall j, j < n ->
               qualifying env oldest_ts (GetMostRecentMinidump env j)
               = false) ->
    qualifying env oldest_ts (GetMostRecentMinidump env n) = true ->
    n < fuel ->
    GetRecentMinidumpPathWithTimeout env fuel timeout_s oldest_ts w
    = (Ret (Some (fst (GetMostRecentMinidump env n))),
       mkWorld (self w)
         (effects w
          ++ ETime :: idle_polls (_tmp_minidump_dir (self w)) n
          ++ [ETime; EGetMostRecentMinidump (_tmp_minidump_dir (self w));
              ELog (join_lines (snd (GetMostRecentMinidump env n)))])).
Proof.
  intros env w timeout_s oldest_ts n fuel Htimeout Holdest Hclock Hnone
    Hfound Hfuel.
  unfold GetRecentMinidumpPathWithTimeout. py_simpl.
  apply Z.ltb_lt in Htimeout. apply Z.leb_le in Holdest.
  rewrite Htimeout, Holdest. simpl.
  rewrite (poll_loop_finds env timeout_s oldest_ts (time_time env 0) n fuel 0
             ["No explanation returned."]
             (mkWorld (self w) (effects w ++ [ETime])));
    try assumption.
  cbn [fst snd self effects Nat.add]. f_equal. f_equal.
  rewrite <- !app_assoc. reflexivity.
Qed.

Lemma GetRecentMinidumpPathWithTimeout_finds_dump_witness :
  (0 < 3)%Z /\ (0 <= 0)%Z /\
  qualifying one_dump 0 (GetMostRecentMinidump one_dump 0) = true /\
  0 < 10 /\
  fst (GetRecentMinidumpPathWithTimeout one_dump 10 3 0 started)
  = Ret (Some (Some "/tmp/minidumps/a.dmp")).
Proof.
  split; [lia|]. split; [lia|]. split; [reflexivity|]. split; [lia|].
  rewrite (GetRecentMinidumpPathWithTimeout_finds_dump one_dump started 3%Z
             0%Z 0 10).
  - reflexivity.
  - lia.
  - lia.
  - intros j Hj. assert (j = 0) as -> by lia. simpl. lia.
  - intros j Hj. lia.
  - reflexivity.
  - lia.
Defined.

(** ** Stack traces *)

(** X16.  [GetStackTrace] without a dump does no work: when the finder
    reports no path (none or the empty string) it returns [(False, 'No
    crash dump found.')] after logging the finder's explanation, uploads
    nothing, asks no symbolizer and leaves the backend as it was.  When
    the finder reports a path, it returns what [SymbolizeMinidump] returns
    for that path and leaves the backend as that call does. *)
Theorem GetStackTrace_needs_a_dump :
  forall (env : Env) (w : World),
    let found := fst (GetMostRecentMinidump env 0) in
    let explanation := snd (GetMostRecentMinidump env 0) in
    (truthy found = false ->
     GetStackTrace env w
     = (Ret (false, "No crash dump found."),
        mkWorld (self w)
          (effects w
           ++ [EGetMostRecentMinidump (_tmp_minidump_dir (self w));
               ELog (join_lines explanation)]))) /\
    (forall path,
       found = Some path -> path <> EmptyString ->
       fst (GetStackTrace env w) = fst (SymbolizeMinidump env path w) /\
       self (snd (GetStackTrace env w))
       = self (snd (SymbolizeMinidump env path w))).
Proof.
  intros env w found explanation. subst found explanation.
  unfold GetStackTrace, GetMostRecentMinidumpPath.
  destruct (GetMostRecentMinidump env 0) as [dump explanation]. simpl.
  split.
  - intros Ht. py_simpl. rewrite Ht. simpl.
    rewrite <- app_assoc. reflexivity.
  - intros path -> Hne.
    assert (Ht : String.eqb path "" = false) by (apply String.eqb_neq, Hne).
    unfold SymbolizeMinidump, _InternalSymbolizeMinidump,
      _UploadMinidumpToCloudStorage, _GetStackFromMinidump.
    py_simpl. rewrite Ht. simpl.
    destruct (cloud_storage_Insert env path) as [url|[]]; simpl;
      destruct (SymbolizeMinidump_stack env path) as [[stack'|]|[]]; simpl;
      try destruct (String.eqb stack' ""); simpl; split; reflexivity.
Qed.

Lemma GetStackTrace_needs_a_dump_witness :
  truthy (fst (GetMostRecentMinidump stubborn_browser 0)) = false /\
  fst (GetStackTrace stubborn_browser started)
  = Ret (false, "No crash dump found.") /\
  fst (GetMostRecentMinidump one_dump 0) = Some "/tmp/minidumps/a.dmp" /\
  fst (GetStackTrace one_dump started) = Ret (true, "#0 main()").
Proof.
  destruct (GetStackTrace_needs_a_dump stubborn_browser started) as [Hnone _].
  destruct (GetStackTrace_needs_a_dump one_dump started) as [_ Hsome].
  split; [reflexivity|].
  split; [rewrite (Hnone eq_refl); reflexivity|].
  split; [reflexivity|].
  rewrite (proj1 (Hsome _ eq_refl ltac:(discriminate))). reflexivity.
Defined.

(** ** Uploads and faults *)

(** X17.  A failed upload degrades, it does not abort: when the upload
    raises a cloud-storage error, [SymbolizeMinidump] still asks the
    symbolizer.  A stack that is not empty is returned with [True] and the
    path is recorded as symbolized; without a stack the call returns
    [False] with a message that carries the placeholder link. *)
Theorem SymbolizeMinidump_survives_upload_error :
  forall (env : Env) (path msg : string) (w : World),
    cloud_storage_Insert env path = Raise (CloudStorageError msg) ->
    (forall stack,
       SymbolizeMinidump_stack env path = Ret (Some stack) ->
       stack <> EmptyString ->
       fst (SymbolizeMinidump env path w) = Ret (true, stack) /\
       path ∈ _most_recent_symbolized_minidump_paths
                (self (snd (SymbolizeMinidump env path w)))) /\
    (SymbolizeMinidump_stack env path = Ret None \/
     SymbolizeMinidump_stack env path = Ret (Some EmptyString) ->
     fst (SymbolizeMinidump env path w)
     = Ret (false,
            "Failed to symbolize minidump. Raw stack is uploaded to cloud storage: <Missing link>.") /\
     self (snd (SymbolizeMinidump env path w)) = self w) /\
    (exists log,
       effects (snd (SymbolizeMinidump env path w))
       = (effects w ++ [EUpload path; ELog log; ESymbolize path])%list).
Proof.
  intros env path msg w Hup.
  unfold SymbolizeMinidump, _InternalSymbolizeMinidump,
    _UploadMinidumpToCloudStorage, _GetStackFromMinidump.
  py_simpl. rewrite Hup. simpl.
  split; [|split].
  - intros stack -> Hne.
    assert (Ht : String.eqb stack "" = false) by (apply String.eqb_neq, Hne).
    simpl. rewrite Ht. simpl. split; [reflexivity|].
    apply elem_of_union_l, elem_of_singleton. reflexivity.
  - intros [-> | ->]; simpl; split; reflexivity.
  - destruct (SymbolizeMinidump_stack env path) as [[stack'|]|e]; simpl;
      try destruct (String.eqb stack' ""); simpl;
      rewrite <- !app_assoc; simpl; eexists; reflexivity.
Qed.

Lemma SymbolizeMinidump_survives_upload_error_witness :
  cloud_storage_Insert upload_faults "/tmp/minidumps/a.dmp"
  = Raise (CloudStorageError "403") /\
  SymbolizeMinidump_stack upload_faults "/tmp/minidumps/a.dmp"
  = Ret (Some "#0 main()") /\
  fst (SymbolizeMinidump upload_faults "/tmp/minidumps/a.dmp" started)
  = Ret (true, "#0 main()").
Proof.
  split; [reflexivity|]. split; [reflexivity|].
  destruct (SymbolizeMinidump_survives_upload_error upload_faults
              "/tmp/minidumps/a.dmp" "403" started eq_refl) as [Hok _].
  exact (proj1 (Hok "#0 main()" eq_refl ltac:(discriminate))).
Defined.

(** X18.  A fault that is not a cloud-storage error is not swallowed and
    leaves no trace in the memo: when the upload raises another
    exception, [SymbolizeMinidump] raises it without asking the
    symbolizer, and when the symbolizer raises, the call raises that
    exception; in both cases the set of symbolized paths is as before. *)
Theorem SymbolizeMinidump_propagates_other_faults :
  forall (env : Env) (path : string) (w : World) (e : exn),
    (cloud_storage_Insert env path = Raise e ->
     (forall msg, e <> CloudStorageError msg) ->
     SymbolizeMinidump env path w
     = (Raise e, mkWorld (self w) (effects w ++ [EUpload path]))) /\
    (SymbolizeMinidump_stack env path = Raise e ->
     (forall e', cloud_storage_Insert env path = Raise e' ->
                 exists msg, e' = CloudStorageError msg) ->
     fst (SymbolizeMinidump env path w) = Raise e /\
     self (snd (SymbolizeMinidump env path w)) = self w).
Proof.
  intros env path w e.
  unfold SymbolizeMinidump, _InternalSymbolizeMinidump,
    _UploadMinidumpToCloudStorage, _GetStackFromMinidump.
  py_simpl. split.
  - intros -> Hnot. destruct e; simpl; try reflexivity.
    exfalso. eapply Hnot. reflexivity.
  - intros -> Hcloud.
    destruct (cloud_storage_Insert env path) as [url|e'] eqn:Hup; simpl.
    + split; reflexivity.
    + destruct (Hcloud e' eq_refl) as [msg ->]. simpl. split; reflexivity.
Qed.

Lemma SymbolizeMinidump_propagates_other_faults_witness :
  cloud_storage_Insert upload_breaks "/tmp/minidumps/a.dmp"
  = Raise (OSError "No such file") /\
  SymbolizeMinidump upload_breaks "/tmp/minidumps/a.dmp" started
  = (Raise (OSError "No such file"),
     mkWorld (self started) [EUpload "/tmp/minidumps/a.dmp"]).
Proof.
  split; [reflexivity|].
  destruct (SymbolizeMinidump_propagates_other_faults upload_breaks
              "/tmp/minidumps/a.dmp" started (OSError "No such file"))
    as [H _].
  rewrite (H eq_refl ltac:(discriminate)). reflexivity.
Defined.

(** ** The listing of unsymbolized dumps *)

(** X19.  [GetAllUnsymbolizedMinidumpPaths] lists paths the finder reports
    and no symbolized path; on a backend that symbolized nothing it lists
    every reported path.  A successful [SymbolizeMinidump] takes exactly
    its path out of the listing, and the set of symbolized paths never
    shrinks, whatever the call returns. *)
Theorem UnsymbolizedDumps_listing :
  forall (env : Env) (w : World),
    (forall p, p ∈ UnsymbolizedDumps env w ->
               In p (fst (finder_GetAllMinidumpPaths env)) /\
               p ∉ _most_recent_symbolized_minidump_paths (self w)) /\
    (_most_recent_symbolized_minidump_paths (self w) = ∅ ->
     forall p, In p (fst (finder_GetAllMinidumpPaths env)) ->
               p ∈ UnsymbolizedDumps env w) /\
    (forall env0 path,
       _most_recent_symbolized_minidump_paths (self w)
       ⊆ _most_recent_symbolized_minidump_paths
           (self (snd (SymbolizeMinidump env0 path w)))) /\
    (forall env0 path stack,
       fst (SymbolizeMinidump env0 path w) = Ret (true, stack) ->
       UnsymbolizedDumps env (snd (SymbolizeMinidump env0 path w))
       = UnsymbolizedDumps env w ∖ {[path]}).
Proof.
  intros env w. split; [|split; [|split]].
  - intros p. rewrite UnsymbolizedDumps_eq, elem_of_difference,
      elem_of_list_to_set, list_elem_of_In. tauto.
  - intros Hempty p Hin. rewrite UnsymbolizedDumps_eq, elem_of_difference,
      elem_of_list_to_set, list_elem_of_In, Hempty.
    split; [exact Hin | apply not_elem_of_empty].
  - intros env0 path.
    unfold SymbolizeMinidump, _InternalSymbolizeMinidump,
      _UploadMinidumpToCloudStorage, _GetStackFromMinidump.
    py_simpl.
    destruct (cloud_storage_Insert env0 path) as [url|[]]; simpl;
      destruct (SymbolizeMinidump_stack env0 path) as [[stack'|]|[]]; simpl;
      try destruct (String.eqb stack' ""); simpl;
      try reflexivity; apply union_subseteq_r.
  - intros env0 path stack Hok. rewrite !UnsymbolizedDumps_eq.
    rewrite (SymbolizeMinidump_success env0 path w stack Hok).
    apply set_eq. intros x.
    rewrite !elem_of_difference, elem_of_union. tauto.
Qed.

Lemma UnsymbolizedDumps_listing_witness :
  _most_recent_symbolized_minidump_paths (self started) = ∅ /\
  In "/tmp/minidumps/a.dmp" (fst (finder_GetAllMinidumpPaths one_dump)) /\
  "/tmp/minidumps/a.dmp" ∈ UnsymbolizedDumps one_dump started /\
  fst (SymbolizeMinidump one_dump "/tmp/minidumps/a.dmp" started)
  = Ret (true, "#0 main()") /\
  UnsymbolizedDumps one_dump
    (snd (SymbolizeMinidump one_dump "/tmp/minidumps/a.dmp" started))
  = UnsymbolizedDumps one_dump started ∖ {["/tmp/minidumps/a.dmp"]}.
Proof.
  destruct (UnsymbolizedDumps_listing one_dump started)
    as (_ & Hall & _ & Hgone).
  split; [reflexivity|]. split; [left; reflexivity|].
  split; [exact (Hall eq_refl _ (or_introl eq_refl))|].
  split; [reflexivity|].
  exact (Hgone one_dump _ _ eq_refl).
Defined.


(** ** The shutdown escalation of [Close] *)

Ltac close_cases w :=
  unfold Close, BestEffort, Close_body, _TryCooperativeShutdown,
    IsBrowserRunning, on_proc, except_TimeoutException;
  py_simpl;
  destruct w as [[dir proc out sym dumps] effs]; simpl;
  repeat match goal with
         | |- context [match ?x with _ => _ end] =>
             lazymatch x with
             | context [match _ with _ => _ end] => fail
             | _ => let E := fresh "E" in destruct x eqn:E; simpl
             end
         end.

(** X20.  [Close] escalates and does so once.  Whatever the environment
    answers, a call sends at most one cooperative request, at most one
    SIGINT and at most one kill.  SIGINT is sent only when the second
    liveness check finds the process running and never on Windows; kill
    is sent only when the third check still finds it running.  A backend
    without a process handle gets none of the three. *)
Theorem Close_escalates_once :
  forall (env : Env) (w : World),
    exists more,
      effects (snd (Close env w)) = (effects w ++ more)%list /\
      (count is_cooperative more <= 1 /\ count is_sigint more <= 1 /\
       count is_kill more <= 1) /\
      (existsb is_sigint more = true ->
       poll env 1 = Ret None /\ GetOSName env <> Ret "win") /\
      (existsb is_kill more = true -> poll env 2 = Ret None) /\
      (_proc (self w) = None -> existsb touches_process more = false).
Proof.
  intros env w. close_cases w.
  all: rewrite <- ?app_assoc; simpl.
  all: eexists; split; [try reflexivity; rewrite app_nil_r; reflexivity|].
  all: simpl; split; [lia|].
  all: repeat split; try discriminate; try assumption; try reflexivity.
  all: try (intros _; reflexivity).
  all: intros [= ->]; simpl in *; discriminate.
Qed.

End backend_coverage.
